(** * Task classification and baseline reconciliation of the simulation harness

    A shallow embedding of [python/inet/simulation/task.py] and
    [python/inet/test/chart.py], and the properties of the result
    classification, of the output parsing and of the chart baseline
    reconciliation.

    Text is modelled as [string]: a Python [str] whose code points are below
    256.  On that range the digit class is the ASCII digits and [str.strip] removes the
    code points 9-13, 28-32, 133 and 160. *)

From Stdlib Require Import ZArith Lia Ascii String DecimalString.
From stdpp Require Import base option list gmap strings.

Open Scope string_scope.
Open Scope Z_scope.

(** ** Python values and exceptions *)

Inductive PyVal :=
| PyNone
| PyStr (s : string).

Inductive Exn :=
| Exception (msg : string)
| KeyError (key : string)
| TypeError (msg : string)
| NameError (name : string)
| ValueError (msg : string)
| FileNotFoundError (path : string)
| NotADirectoryError (path : string)
| IsADirectoryError (path : string)
| UnicodeDecodeError (msg : string)
| AssertionError (msg : string)
| OSError (msg : string).

Inductive outcome (A : Type) :=
| Returned (a : A)
| Raised (e : Exn).
Arguments Returned {A} a.
Arguments Raised {A} e.

#[global] Instance outcome_ret : MRet outcome := λ A a, Returned a.
#[global] Instance outcome_bind : MBind outcome := λ A B f m,
  match m with
  | Returned a => f a
  | Raised e => Raised e
  end.

(** ** The [re] module, for the patterns the sources use

    A pattern is a sequence of items; an item is a character class under a
    quantifier, possibly wrapped in a capturing group.  This covers literal
    characters, the dot, the digit class, the greedy star and plus, and a
    capturing group around one quantified class. *)

Module re.

Inductive cls :=
| Lit (c : ascii)
| Dot
| Digit.

Inductive quant := One | Star | Plus.

Record item := Item { capture : bool; rep : quant; set : cls }.

Definition pattern := list item.

Definition newline : ascii := "010"%char.

(** [.] matches anything but a newline (no DOTALL flag is used). *)
Definition in_cls (k : cls) (c : ascii) : bool :=
  match k with
  | Lit a => Ascii.eqb a c
  | Dot => negb (Ascii.eqb c newline)
  | Digit => ((48 <=? nat_of_ascii c) && (nat_of_ascii c <=? 57))%nat
  end.

Definition is_special (c : ascii) : bool :=
  bool_decide (c ∈ list_ascii_of_string "\.^$*+?{}[]|()").

Definition read_cls (s : string) : option (cls * string) :=
  match s with
  | String "." r => Some (Dot, r)
  | String "\" (String "d" r) => Some (Digit, r)
  | String c r => if is_special c then None else Some (Lit c, r)
  | "" => None
  end.

Definition read_quant (s : string) : quant * string :=
  match s with
  | String "*" r => (Star, r)
  | String "+" r => (Plus, r)
  | _ => (One, s)
  end.

Definition read_item (s : string) : option (item * string) :=
  match s with
  | String "(" r =>
      match read_cls r with
      | Some (k, r1) =>
          let '(q, r2) := read_quant r1 in
          match r2 with
          | String ")" r3 => Some (Item true q k, r3)
          | _ => None
          end
      | None => None
      end
  | _ =>
      match read_cls s with
      | Some (k, r1) => let '(q, r2) := read_quant r1 in Some (Item false q k, r2)
      | None => None
      end
  end.

Fixpoint compile_fuel (fuel : nat) (s : string) : option pattern :=
  match s with
  | "" => Some []
  | _ =>
      match fuel with
      | O => None
      | S fuel' =>
          match read_item s with
          | Some (it, r) =>
              match compile_fuel fuel' r with
              | Some p => Some (it :: p)
              | None => None
              end
          | None => None
          end
      end
  end.

(** Every item consumes at least one character of the pattern text, so its
    length is fuel enough. *)
Definition compile (s : string) : option pattern :=
  compile_fuel (String.length s) s.

(** The result of a match attempt: the captured groups, in order, and the
    text left after the match. *)
Definition result : Type := list string * string.

(** A greedy repetition of one class: take one more character first, and
    fall back to the continuation when that fails. *)
Fixpoint greedy (k : cls) (cont : string → string → option result)
    (taken s : string) : option result :=
  match s with
  | String c s' =>
      if in_cls k c then
        match greedy k cont (taken +:+ String c "") s' with
        | Some r => Some r
        | None => cont taken s
        end
      else cont taken s
  | "" => cont taken s
  end.

Fixpoint match_here (p : pattern) (s : string) : option result :=
  match p with
  | [] => Some ([], s)
  | Item g q k :: p' =>
      let cont (taken rest : string) :=
        match match_here p' rest with
        | Some (gs, r) => Some (if g then taken :: gs else gs, r)
        | None => None
        end in
      match q with
      | Star => greedy k cont "" s
      | Plus =>
          match s with
          | String c s' => if in_cls k c then greedy k cont (String c "") s' else None
          | "" => None
          end
      | One =>
          match s with
          | String c s' => if in_cls k c then cont (String c "") s' else None
          | "" => None
          end
      end
  end.

(** [re.search]: the match at the leftmost start position. *)
Fixpoint search_pattern (p : pattern) (s : string) : option (list string) :=
  match match_here p s with
  | Some (gs, _) => Some gs
  | None =>
      match s with
      | String _ s' => search_pattern p s'
      | "" => None
      end
  end.

(** A match object is its list of groups; a pattern outside the fragment
    above (none occurs in the sources) finds nothing. *)
Definition search (pat s : string) : option (list string) :=
  match compile pat with
  | Some p => search_pattern p s
  | None => None
  end.

(** [match.group(i)] for [i >= 1]. *)
Definition group (m : list string) (i : nat) : string :=
  default "" (m !! pred i).

(** [re.sub] for a pattern that does not match the empty text: the leftmost
    non-overlapping matches are replaced.  [skip] counts the characters of a
    match still to be dropped. *)
Fixpoint sub_from (p : pattern) (repl : string) (skip : nat) (s : string) : string :=
  match s with
  | "" => ""
  | String c s' =>
      match skip with
      | S n => sub_from p repl n s'
      | O =>
          match match_here p s with
          | Some (_, rest) =>
              match (String.length s - String.length rest)%nat with
              | S n => repl +:+ sub_from p repl n s'
              | O => String c (sub_from p repl 0 s')
              end
          | None => String c (sub_from p repl 0 s')
          end
      end
  end.

Definition sub (pat repl s : string) : string :=
  match compile pat with
  | Some p => sub_from p repl 0 s
  | None => s
  end.






End re.

(** ** Built-ins on [str] *)

Definition is_space (c : ascii) : bool :=
  let n := nat_of_ascii c in
  ((9 <=? n) && (n <=? 13) || (28 <=? n) && (n <=? 32) || (n =? 133) || (n =? 160))%nat.

Fixpoint lstrip (s : string) : string :=
  match s with
  | String c r => if is_space c then lstrip r else s
  | "" => ""
  end.

Definition rstrip (s : string) : string := String.rev (lstrip (String.rev s)).

Definition strip (s : string) : string := rstrip (lstrip s).

Definition is_digit (c : ascii) : bool := re.in_cls re.Digit c.

Fixpoint int_digits (acc : Z) (s : string) : option Z :=
  match s with
  | "" => Some acc
  | String c r =>
      if is_digit c then int_digits (10 * acc + (Z.of_nat (nat_of_ascii c) - 48)) r
      else None
  end.

Definition dquote : ascii := "034"%char.

(** [str(n)] for an integer. *)
Definition str_of_int (n : Z) : string := NilZero.string_of_int (Z.to_int n).

Module sys.
(** [sys.get_int_max_str_digits()], as the interpreter starts. *)
Definition int_max_str_digits : Z := 4300.
End sys.

(** The length of the run of decimal digits a text starts with. *)
Fixpoint digit_run (s : string) : nat :=
  match s with
  | String c r => if is_digit c then S (digit_run r) else 0%nat
  | "" => 0%nat
  end.

(** [int(s)] on the texts the code hands to it, which are runs of decimal
    digits: the value of the digits, and a [ValueError] when the run the text
    starts with has more digits than the interpreter converts, or when the
    text is not a run of digits. *)
Definition int (s : string) : outcome Z :=
  let n := Z.of_nat (digit_run s) in
  if sys.int_max_str_digits <? n then
    Raised (ValueError ("Exceeds the limit (4300 digits) for integer string conversion: value has "
                        +:+ str_of_int n
                        +:+ " digits; use sys.set_int_max_str_digits() to increase the limit"))
  else
    match s with
    | "" => Raised (ValueError "invalid literal for int() with base 10")
    | _ =>
        match int_digits 0 s with
        | Some v => Returned v
        | None => Raised (ValueError "invalid literal for int() with base 10")
        end
    end.

(** ** [bytes]

    What a process wrote to a stream is the UTF-8 encoding of a text, or a
    sequence of bytes that is no UTF-8 encoding; [reason] is what the codec
    says of the first offending byte. *)
Inductive bytes :=
| encoded (text : string)
| malformed (reason : string).

(** [b.decode("utf-8")], with the strict error handling of the default. *)
Definition decode (b : bytes) : outcome string :=
  match b with
  | encoded text => Returned text
  | malformed reason => Raised (UnicodeDecodeError reason)
  end.

(** ** [os.path] (POSIX) *)

Module os_path.

Definition ends_with_sep (a : string) : bool := String.prefix "/" (String.rev a).

(** [os.path.join(a, b)] *)
Definition join (a b : string) : string :=
  if String.prefix "/" b then b
  else if String.eqb a "" || ends_with_sep a then a +:+ b
  else a +:+ "/" +:+ b.

Fixpoint drop_to_sep (s : string) : string :=
  match s with
  | String c r => if Ascii.eqb c "/" then s else drop_to_sep r
  | "" => ""
  end.

Fixpoint lstrip_sep (s : string) : string :=
  match s with
  | String c r => if Ascii.eqb c "/" then lstrip_sep r else s
  | "" => ""
  end.

(** [os.path.dirname(p)]: the head up to the last separator, without its
    trailing separators unless it consists of separators only. *)
Definition dirname (p : string) : string :=
  let head := drop_to_sep (String.rev p) in
  match lstrip_sep head with
  | "" => String.rev head
  | h => String.rev h
  end.

End os_path.

(** ** The file system

    A finite map from the paths of the regular files to their contents; a
    directory exists when a file lies under it. *)

Abbreviation FS := (gmap string string).

(** Computations on the file system that may raise. *)
Definition IO (A : Type) : Type := FS → outcome A * FS.

#[global] Instance IO_ret : MRet IO := λ A a fs, (Returned a, fs).
#[global] Instance IO_bind : MBind IO := λ A B f m fs,
  match m fs with
  | (Returned a, fs') => f a fs'
  | (Raised e, fs') => (Raised e, fs')
  end.

Definition raise {A : Type} (e : Exn) : IO A := λ fs, (Raised e, fs).

Definition lift {A : Type} (o : outcome A) : IO A := λ fs, (o, fs).

Module os.

Definition under (d k : string) : bool := String.prefix (d +:+ "/") k.

Definition tree (d : string) (fs : FS) : FS :=
  filter (λ kv : string * string, under d kv.1 = true) fs.

Definition isfile (p : string) : IO bool :=
  λ fs, (Returned (bool_decide (is_Some (fs !! p))), fs).

Definition exists_ (p : string) : IO bool :=
  λ fs, (Returned (bool_decide (is_Some (fs !! p)) || negb (bool_decide (tree p fs = ∅))), fs).

(** A path is a directory when it holds no file and a file lies under it. *)
Definition isdir (p : string) (fs : FS) : bool :=
  match fs !! p with
  | Some _ => false
  | None => negb (bool_decide (tree p fs = ∅))
  end.

Definition remove (p : string) : IO unit :=
  λ fs, match fs !! p with
        | Some _ => (Returned (), delete p fs)
        | None =>
            if isdir p fs then (Raised (IsADirectoryError p), fs)
            else (Raised (FileNotFoundError p), fs)
        end.

(** The files of the directory [src], under [dst] instead. *)
Definition moved (src dst : string) (fs : FS) : FS :=
  list_to_map
    (map (λ kv : string * string,
            (if under src kv.1
             then dst +:+ String.substring (String.length src)
                            (String.length kv.1 - String.length src) kv.1
             else kv.1, kv.2))
       (map_to_list fs)).

(** [os.rename(src, dst)]: a regular file replaces a regular file and
    cannot replace a directory; a directory moves with what lies under it to
    a path that does not exist, and neither onto a regular file, nor onto a
    directory that holds files, nor under itself. *)
Definition rename (src dst : string) : IO unit :=
  λ fs, match fs !! src with
        | Some content =>
            if isdir dst fs then (Raised (IsADirectoryError dst), fs)
            else (Returned (), <[dst := content]> (delete src fs))
        | None =>
            if negb (isdir src fs) then (Raised (FileNotFoundError src), fs)
            else if String.eqb src dst then (Returned (), fs)
            else if bool_decide (is_Some (fs !! dst)) then (Raised (NotADirectoryError dst), fs)
            else if under src dst then (Raised (OSError "Invalid argument"), fs)
            else if isdir dst fs then (Raised (OSError "Directory not empty"), fs)
            else (Returned (), moved src dst fs)
        end.

End os.

Module shutil.

(** [shutil.rmtree(path)]: everything under the directory goes. *)
Definition rmtree (path : string) : IO unit :=
  λ fs, match fs !! path with
        | Some _ => (Raised (NotADirectoryError path), fs)
        | None =>
            if bool_decide (os.tree path fs = ∅) then (Raised (FileNotFoundError path), fs)
            else (Returned (), filter (λ kv : string * string, os.under path kv.1 = false) fs)
        end.

End shutil.

Module filecmp.

(** [filecmp.cmp(f1, f2, shallow=False)]: both paths must exist; the
    contents of two regular files are compared, and a path that is no regular
    file makes the answer false. *)
Definition cmp (f1 f2 : string) : IO bool :=
  λ fs, match fs !! f1, fs !! f2 with
        | Some c1, Some c2 => (Returned (String.eqb c1 c2), fs)
        | None, other =>
            if negb (os.isdir f1 fs) then (Raised (FileNotFoundError f1), fs)
            else match other with
                 | Some _ => (Returned false, fs)
                 | None =>
                     if os.isdir f2 fs then (Returned false, fs)
                     else (Raised (FileNotFoundError f2), fs)
                 end
        | Some _, None =>
            if os.isdir f2 fs then (Returned false, fs)
            else (Raised (FileNotFoundError f2), fs)
        end.

End filecmp.

(** ** [inet/simulation/task.py] *)

Module task.

Record SimulationProject := {
  get_full_path : string → string
}.

Record SimulationConfig := {
  simulation_project : SimulationProject;
  working_directory : string;
  ini_file : string;
  config : string
}.

(** A time limit is a fixed value or a function of the configuration and the
    run. *)
Inductive TimeLimit :=
| Fixed (value : string)
| Callable (f : SimulationConfig → Z → string).

Record SimulationTask := {
  simulation_config : SimulationConfig;
  _run : Z;
  mode : string;
  user_interface : string;
  sim_time_limit : option TimeLimit;
  cpu_time_limit : option TimeLimit;
  record_eventlog : bool;
  record_pcap : bool
}.

(** What [subprocess.run] hands back to the probe of [is_interactive]: the
    exit status and the two captured streams, here already decoded. *)
Record SubprocessResult := {
  returncode : Z;
  stdout : string;
  stderr : string
}.

(** What the simulation runner hands back to [run_protected]: the exit
    status and the two captured streams, as the bytes they are. *)
Module runner.
Record SubprocessResult := {
  returncode : Z;
  stdout : bytes;
  stderr : bytes
}.
End runner.

Record SimulationTaskResult := {
  task : SimulationTask;
  result : string;
  reason : option string;
  subprocess_result : option runner.SubprocessResult;
  last_event_number : option Z;
  last_simulation_time : option string;
  error_message : option string;
  error_module : option string
}.

Module signal.
Definition SIGINT : Z := 2.
End signal.

Module SimulationTaskResult.

(** [SimulationTaskResult.__init__]; [reason] is the keyword argument handed
    on to the base class, [None] when it is not given. *)
Definition __init__ (simulation_task : SimulationTask) (result : string)
    (subprocess_result : option runner.SubprocessResult) (reason : option string)
    : outcome SimulationTaskResult :=
  match subprocess_result with
  | Some sr =>
      stdout ← decode (runner.stdout sr);
      stderr ← decode (runner.stderr sr);
      let match_ := re.search "<!> Simulation time limit reached -- at t=(.*), event #(\d+)" stdout in
      last_event_number ←
        match match_ with
        | Some m => n ← int (re.group m 2); mret (Some n)
        | None => mret None
        end;
      let last_simulation_time :=
        match match_ with Some m => Some (re.group m 1) | None => None end in
      let match_ := re.search "<!> Error: (.*) -- in module (.*)" stderr in
      let error_message :=
        match match_ with Some m => Some (strip (re.group m 1)) | None => None end in
      let error_module :=
        match match_ with Some m => Some (strip (re.group m 2)) | None => None end in
      let error_message :=
        match error_message with
        | None =>
            let match_ := re.search "<!> Error: (.*)" stderr in
            match match_ with Some m => Some (strip (re.group m 1)) | None => None end
        | Some _ => error_message
        end in
      Returned {| task := simulation_task; result := result; reason := reason;
                  subprocess_result := subprocess_result;
                  last_event_number := last_event_number;
                  last_simulation_time := last_simulation_time;
                  error_message := error_message;
                  error_module := error_module |}
  | None =>
      Returned {| task := simulation_task; result := result; reason := reason;
                  subprocess_result := subprocess_result;
                  last_event_number := None;
                  last_simulation_time := None;
                  error_message := None;
                  error_module := None |}
  end.

(** [x or default] for an optional text: [None] and the empty text are
    false. *)
Definition or_default (x : option string) (default : string) : string :=
  match x with
  | Some s => if String.eqb s "" then default else s
  | None => default
  end.

Definition get_error_message (self : SimulationTaskResult) (complete_error_message : bool)
    : string :=
  let error_message := or_default (error_message self) "Error message not found" in
  let error_module := or_default (error_module self) "Error module not found" in
  if String.eqb (result self) "ERROR" then
    if complete_error_message then error_message +:+ " -- in module " +:+ error_module
    else error_message
  else "".

Definition get_subprocess_result (self : SimulationTaskResult)
    : option runner.SubprocessResult :=
  subprocess_result self.

End SimulationTaskResult.



Module SimulationTask.

(** Truth value of a limit: [None] and the empty text are false. *)
Definition truthy (limit : option TimeLimit) : bool :=
  match limit with
  | None => false
  | Some (Fixed value) => negb (String.eqb value "")
  | Some (Callable _) => true
  end.

Definition get_limit (self : SimulationTask) (limit : option TimeLimit) : list string :=
  match limit with
  | Some (Callable f) => [f (simulation_config self) (_run self)]
  | Some (Fixed value) => [value]
  | None => []
  end.

Definition get_sim_time_limit (self : SimulationTask) : list string :=
  get_limit self (sim_time_limit self).

Definition get_cpu_time_limit (self : SimulationTask) : list string :=
  get_limit self (cpu_time_limit self).

(** The argument vector of the simulator. *)
Definition args (self : SimulationTask) (extra_args : list string) : list string :=
  let simulation_project := simulation_project (simulation_config self) in
  let ini_file := ini_file (simulation_config self) in
  let config := config (simulation_config self) in
  let sim_time_limit_args :=
    if truthy (sim_time_limit self) then "--sim-time-limit" :: get_sim_time_limit self else [] in
  let cpu_time_limit_args :=
    if truthy (cpu_time_limit self) then "--cpu-time-limit" :: get_cpu_time_limit self else [] in
  let record_eventlog_args :=
    if record_eventlog self then ["--record-eventlog"; "true"] else [] in
  let record_pcap_args :=
    if record_pcap self
    then ["--**.numPcapRecorders=1"; "--**.crcMode=" +:+ String dquote "computed" +:+ String dquote EmptyString;
          "--**.fcsMode=" +:+ String dquote "computed" +:+ String dquote EmptyString]
    else [] in
  let executable := get_full_path simulation_project "bin/inet" in
  [executable; "--" +:+ mode self; "-s"; "-u"; user_interface self; "-f"; ini_file;
   "-c"; config; "-r"; str_of_int (_run self)]
  ++ sim_time_limit_args ++ cpu_time_limit_args ++ record_eventlog_args
  ++ record_pcap_args ++ extra_args.

(** [SimulationTask.run_protected]; the runner is the injected collaborator
    that executes the argument vector. *)
Definition run_protected (self : SimulationTask) (extra_args : list string)
    (simulation_runner : SimulationTask → list string → runner.SubprocessResult)
    : outcome SimulationTaskResult :=
  let subprocess_result := simulation_runner self (args self extra_args) in
  if runner.returncode subprocess_result =? - signal.SIGINT then
    SimulationTaskResult.__init__ self "CANCEL" (Some subprocess_result) (Some "Cancel by user")
  else if runner.returncode subprocess_result =? 0 then
    SimulationTaskResult.__init__ self "DONE" (Some subprocess_result) None
  else
    SimulationTaskResult.__init__ self "ERROR" (Some subprocess_result) (Some "Non-zero exit code").


(** [get_parameters_string]; [" for " + self.sim_time_limit] is a text only
    when the limit is one. *)
Definition get_parameters_string (self : SimulationTask) : outcome string :=
  let working_directory := working_directory (simulation_config self) in
  let ini_file := ini_file (simulation_config self) in
  let config := config (simulation_config self) in
  for_limit ←
    (if truthy (sim_time_limit self) then
       match sim_time_limit self with
       | Some (Fixed value) => Returned (" for " +:+ value)
       | _ =>
           Raised (TypeError ("can only concatenate str (not " +:+ String dquote "function" +:+
                              String dquote ") to str"))
       end
     else Returned EmptyString);
  Returned
    (working_directory +:+
     (if negb (String.eqb ini_file "omnetpp.ini") then " -f " +:+ ini_file else "") +:+
     (if negb (String.eqb config "General") then " -c " +:+ config else "") +:+
     (if negb (_run self =? 0) then " -r " +:+ str_of_int (_run self) else "") +:+
     for_limit).

End SimulationTask.

Record MultipleSimulationTasks := {
  tasks : list SimulationTask;
  project : SimulationProject
}.

(** [clean_simulation_results]; the log line has no effect on the outcome. *)
Definition clean_simulation_results (simulation_config : SimulationConfig) : IO unit :=
  let simulation_project := simulation_project simulation_config in
  let path :=
    os_path.join (get_full_path simulation_project (working_directory simulation_config))
      "results" in
  match re.search ".*/home/.*" path with
  | None => raise (Exception "Path is not in home")
  | Some _ =>
      found ← os.exists_ path;
      if found : bool then shutil.rmtree path else mret ()
  end.

(** What the module takes from the modules of configurations and projects,
    which are not among the sources: the configurations found for a project
    (or the default one) under a filter on the working directory, the number
    of runs of a configuration, and the default project. *)
Class Discovery := {
  get_simulation_configs : option SimulationProject → option string → list SimulationConfig;
  num_runs : SimulationConfig → Z;
  default_project : SimulationProject
}.

Fixpoint clean_each (simulation_configs : list SimulationConfig) : IO unit :=
  match simulation_configs with
  | [] => mret ()
  | simulation_config :: rest =>
      _ ← clean_simulation_results simulation_config;
      clean_each rest
  end.


(** [range(0, n)] *)
Definition range (n : Z) : list Z := map Z.of_nat (seq 0 (Z.to_nat n)).

(** [limit(config, run) if callable(limit) else limit], as the constructor
    of the task then receives it. *)
Definition limit_of_run (limit : option TimeLimit) (simulation_config : SimulationConfig)
    (run : Z) : option TimeLimit :=
  match limit with
  | Some (Callable f) => Some (Fixed (f simulation_config run))
  | _ => limit
  end.

Section get_simulation_tasks.
Context `{!Discovery}.
Context (run : option Z) (with_sim_time_limit with_cpu_time_limit : option TimeLimit).
Context (with_mode with_user_interface : string).
Context (with_record_eventlog with_record_pcap : bool).

(** The task of a configuration and a run, with the remaining keyword
    arguments. *)
Definition new_task (simulation_config : SimulationConfig) (run : Z) : SimulationTask :=
  {| simulation_config := simulation_config; _run := run; mode := with_mode;
     user_interface := with_user_interface;
     sim_time_limit := limit_of_run with_sim_time_limit simulation_config run;
     cpu_time_limit := with_cpu_time_limit;
     record_eventlog := with_record_eventlog; record_pcap := with_record_pcap |}.

(** The body of the loop over the configurations: what it appends. *)
Definition tasks_of_config (simulation_config : SimulationConfig) : list SimulationTask :=
  match run with
  | Some run => [new_task simulation_config run]
  | None => map (new_task simulation_config) (range (num_runs simulation_config))
  end.

Fixpoint for_configs (simulation_configs : list SimulationConfig)
    (simulation_tasks : list SimulationTask) : list SimulationTask :=
  match simulation_configs with
  | [] => simulation_tasks
  | simulation_config :: rest =>
      for_configs rest (simulation_tasks ++ tasks_of_config simulation_config)%list
  end.

Definition get_simulation_tasks (simulation_project : option SimulationProject)
    (simulation_configs : option (list SimulationConfig))
    (working_directory_filter : option string) : MultipleSimulationTasks :=
  let simulation_project := default default_project simulation_project in
  let simulation_configs :=
    match simulation_configs with
    | None => get_simulation_configs (Some simulation_project) working_directory_filter
    | Some configs => configs
    end in
  {| tasks := for_configs simulation_configs []; project := simulation_project |}.

End get_simulation_tasks.

End task.

(** ** [inet/test/chart.py] *)

Module chart.

Record Chart := {
  name : string;
  properties : gmap string PyVal
}.

(** What a task hands to its result class: the task and the keyword
    arguments, [None] for one that is not given. *)
Record TaskResult (T : Type) := {
  task : T;
  result : string;
  expected_result : option string;
  reason : option string
}.
Arguments task {T} _.
Arguments result {T} _.
Arguments expected_result {T} _.
Arguments reason {T} _.

(** The analysis library: loading an analysis file gives its charts, and
    rendering a chart gives the bytes of its image. *)
Class Scave := {
  load_anf_file : string → FS → list Chart;
  render : Chart → FS → string
}.

(** The image libraries: reading the bytes of a file as an image, which
    raises when they are no image; the root-mean-square error of two images,
    which raises when they differ in shape; and what the task asks of that
    number: [metric_is_zero] is its comparison with 0 and [str_of_metric] its
    printed form. *)
Class Imaging := {
  image : Type;
  metric : Type;
  read_image : string → outcome image;
  rmse : image → image → outcome metric;
  metric_is_zero : metric → bool;
  str_of_metric : metric → string
}.

(** [chart.properties[key]] *)
Definition getitem (properties : gmap string PyVal) (key : string) : outcome PyVal :=
  match properties !! key with
  | Some v => Returned v
  | None => Raised (KeyError key)
  end.

(** [v + s] for a text [s] *)
Definition add (v : PyVal) (s : string) : outcome string :=
  match v with
  | PyStr a => Returned (a +:+ s)
  | PyNone => Raised (TypeError "unsupported operand type(s) for +: 'NoneType' and 'str'")
  end.

(** [v is None or v == ""] *)
Definition is_none_or_empty (v : PyVal) : bool :=
  match v with
  | PyNone => true
  | PyStr s => String.eqb s ""
  end.

(** Modelled from the spec: [export_image] of the analysis library, which the
    sources only call.  By the baseline artifact layout the image of a chart
    is written to the media folder under the given file name and format, and
    the path of the written file, relative to the folder of the analysis
    file, is returned. *)
Definition export_image `{!Scave} (chart : Chart)
    (folder format target_folder filename : string) : IO string :=
  λ fs, let file_name := target_folder +:+ "/" +:+ filename +:+ "." +:+ format in
        (Returned file_name, <[os_path.join folder file_name := render chart fs]> fs).

(** [matplotlib.image.imread] *)
Definition imread `{!Imaging} (file_name : string) : IO image :=
  λ fs, match fs !! file_name with
        | Some content => (read_image content, fs)
        | None =>
            if os.isdir file_name fs then (Raised (IsADirectoryError file_name), fs)
            else (Raised (FileNotFoundError file_name), fs)
        end.

Record ChartTestTask := {
  simulation_project : task.SimulationProject;
  analysis_file_name : string;
  chart_name : string
}.

Module ChartTestTask.
Section with_libraries.
Context `{!Scave, !Imaging}.

Definition body (self : ChartTestTask) (keep_charts : bool) (chart : Chart)
    : IO (TaskResult ChartTestTask) :=
  image_export_filename ← lift (getitem (properties chart) "image_export_filename");
  let folder :=
    os_path.dirname (task.get_full_path (simulation_project self) (analysis_file_name self)) in
  filename ← lift (add image_export_filename "_new");
  file_name ← export_image chart folder "png" "doc/media" filename;
  let new_file_name := os_path.join folder file_name in
  let old_file_name := os_path.join folder (re.sub "_new" EmptyString file_name) in
  if is_none_or_empty image_export_filename then
    mret {| task := self; result := "SKIP"; expected_result := Some "SKIP";
            reason := Some "Chart file name is not specified" |}
  else
    baseline ← os.isfile old_file_name;
    if baseline : bool then
      new_image ← imread new_file_name;
      old_image ← imread old_file_name;
      metric ← lift (rmse old_image new_image);
      _ ← (if negb keep_charts then os.remove new_file_name else mret ());
      let result := if metric_is_zero metric then "PASS" else "FAIL" in
      let reason :=
        if String.eqb result "FAIL" then Some ("Metric: " +:+ str_of_metric metric) else None in
      mret {| task := self; result := result; expected_result := None; reason := reason |}
    else
      mret {| task := self; result := "FAIL"; expected_result := None;
              reason := Some "Chart not found" |}.

(** The loop over the charts of the analysis: the first chart of the
    requested name decides. *)
Fixpoint for_charts (self : ChartTestTask) (keep_charts : bool) (charts : list Chart)
    : IO (TaskResult ChartTestTask) :=
  match charts with
  | chart :: charts' =>
      if String.eqb (name chart) (chart_name self) then body self keep_charts chart
      else for_charts self keep_charts charts'
  | [] =>
      mret {| task := self; result := "ERROR"; expected_result := None;
              reason := Some "Chart not found" |}
  end.

Definition run_protected (self : ChartTestTask) (keep_charts : bool)
    : IO (TaskResult ChartTestTask) :=
  λ fs,
    let analysis :=
      load_anf_file (task.get_full_path (simulation_project self) (analysis_file_name self)) fs in
    for_charts self keep_charts analysis fs.

End with_libraries.
End ChartTestTask.

Record ChartUpdateTask := {
  update_simulation_project : task.SimulationProject;
  update_analysis_file_name : string;
  update_chart_name : string
}.

Module ChartUpdateTask.
Section with_libraries.
Context `{!Scave}.

Definition body (self : ChartUpdateTask) (chart : Chart) : IO (TaskResult ChartUpdateTask) :=
  image_export_filename ← lift (getitem (properties chart) "image_export_filename");
  let folder :=
    os_path.dirname
      (task.get_full_path (update_simulation_project self) (update_analysis_file_name self)) in
  filename ← lift (add image_export_filename "_new");
  file_name ← export_image chart folder "png" "doc/media" filename;
  let new_file_name := os_path.join folder file_name in
  let old_file_name := os_path.join folder (re.sub "_new" EmptyString file_name) in
  if is_none_or_empty image_export_filename then
    mret {| task := self; result := "SKIP"; expected_result := Some "SKIP";
            reason := Some "Chart file name is not specified" |}
  else
    baseline ← os.isfile old_file_name;
    if baseline : bool then
      same ← filecmp.cmp old_file_name new_file_name;
      _ ← (if same : bool then os.remove new_file_name
           else os.rename new_file_name old_file_name);
      mret {| task := self; result := if same : bool then "KEEP" else "UPDATE";
              expected_result := None; reason := None |}
    else
      _ ← os.rename new_file_name old_file_name;
      mret {| task := self; result := "INSERT"; expected_result := None; reason := None |}.

Fixpoint for_charts (self : ChartUpdateTask) (charts : list Chart)
    : IO (TaskResult ChartUpdateTask) :=
  match charts with
  | chart :: charts' =>
      if String.eqb (name chart) (update_chart_name self) then body self chart
      else for_charts self charts'
  | [] =>
      mret {| task := self; result := "ERROR"; expected_result := None;
              reason := Some "Chart not found" |}
  end.

Definition run_protected (self : ChartUpdateTask) : IO (TaskResult ChartUpdateTask) :=
  λ fs,
    let analysis :=
      load_anf_file
        (task.get_full_path (update_simulation_project self) (update_analysis_file_name self))
        fs in
    for_charts self analysis fs.

End with_libraries.
End ChartUpdateTask.

(** The rolled-up outcome of a batch: the outcomes of the children in order,
    the aggregate code and its reason. *)
Module MultipleTaskResults.
Record t (R : Type) := {
  results : list R;
  result : string;
  reason : option string
}.
Arguments results {R} _.
Arguments result {R} _.
Arguments reason {R} _.
End MultipleTaskResults.

Record MultipleChartTestTasks := {
  tasks : list ChartTestTask;
  multiple_simulation_tasks : task.MultipleSimulationTasks
}.

(** An object a global name is bound to, as far as its attributes are read. *)
Record PyObject := {
  attr_result : string;
  attr_reason : option string
}.

(** What the module takes from the framework modules that are not among the
    sources: the inherited method that runs the batch of simulations, the
    method of the base class that runs the chart tests, and the global names
    the star imports bind. *)
Class Framework := {
  simulations_run_protected :
    task.MultipleSimulationTasks → IO (MultipleTaskResults.t task.SimulationTaskResult);
  super_run_protected :
    MultipleChartTestTasks → IO (MultipleTaskResults.t (TaskResult ChartTestTask));
  imported : string → option PyObject
}.

(** What the method returns on its two paths. *)
Inductive BatchResult :=
| ShortCircuit (r : TaskResult MultipleChartTestTasks)
| Ran (r : MultipleTaskResults.t (TaskResult ChartTestTask)).

Module MultipleChartTestTasks.
Section with_framework.
Context `{!Framework}.

(** Reading a name that the function does not bind: a global of the module,
    or a [NameError]. *)
Definition load_global (name : string) : outcome PyObject :=
  match imported name with
  | Some o => Returned o
  | None => Raised (NameError name)
  end.

Definition run_protected (self : MultipleChartTestTasks) : IO BatchResult :=
  multiple_simulation_task_results ← simulations_run_protected (multiple_simulation_tasks self);
  if negb (String.eqb (MultipleTaskResults.result multiple_simulation_task_results) "DONE") then
    simulation_task_result ← lift (load_global "simulation_task_result");
    mret (ShortCircuit {| task := self;
                          result := attr_result simulation_task_result;
                          expected_result := None;
                          reason := attr_reason simulation_task_result |})
  else
    r ← super_run_protected self;
    mret (Ran r).

End with_framework.
End MultipleChartTestTasks.

(** What the builders of the batches take from outside the sources: the
    analysis files of a project under a filter, [os.path.relpath] (which
    resolves against the current directory), the time limit of the
    statistical tests, and the equality of configurations. *)
Class Workspace := {
  get_analysis_files : task.SimulationProject → option string → list string;
  relpath : string → string → string;
  get_statistical_result_sim_time_limit : task.SimulationConfig → Z → string;
  config_eq : task.SimulationConfig → task.SimulationConfig → bool
}.

(** [a or b] for two optional texts. *)
Definition or_else (a b : option string) : option string :=
  match a with
  | Some s => if String.eqb s "" then b else a
  | None => b
  end.

Section builders.
Context `{!Scave, !Workspace, !task.Discovery}.
Context (with_mode with_user_interface : string).
Context (with_record_eventlog with_record_pcap : bool).

(** The inner loop of [get_chart_test_tasks]: a simulation task is appended
    unless one of the same configuration and run is there already. *)
Definition same_run (element simulation_task : task.SimulationTask) : bool :=
  config_eq (task.simulation_config element) (task.simulation_config simulation_task)
  && (task._run element =? task._run simulation_task).

Definition add_simulation_tasks (new simulation_tasks : list task.SimulationTask)
    : list task.SimulationTask :=
  fold_left
    (λ simulation_tasks simulation_task,
       if existsb (λ element, same_run element simulation_task) simulation_tasks
       then simulation_tasks
       else (simulation_tasks ++ [simulation_task])%list)
    new simulation_tasks.

Definition for_chart (simulation_project : task.SimulationProject) (run_simulations : bool)
    (analysis_file_name : string)
    (acc : list ChartTestTask * list task.SimulationTask) (chart : Chart)
    : list ChartTestTask * list task.SimulationTask :=
  let '(test_tasks, simulation_tasks) := acc in
  let folder := os_path.dirname (task.get_full_path simulation_project analysis_file_name) in
  let working_directory := relpath folder (task.get_full_path simulation_project ".") in
  let simulation_tasks :=
    if run_simulations then
      let multiple_simulation_tasks :=
        task.get_simulation_tasks None
          (Some (task.Callable get_statistical_result_sim_time_limit)) None
          with_mode with_user_interface with_record_eventlog with_record_pcap
          (Some simulation_project) None (Some working_directory) in
      add_simulation_tasks (task.tasks multiple_simulation_tasks) simulation_tasks
    else simulation_tasks in
  ((test_tasks ++ [{| simulation_project := simulation_project;
                      analysis_file_name := analysis_file_name;
                      chart_name := name chart |}])%list,
   simulation_tasks).

Definition for_analysis_file (simulation_project : task.SimulationProject)
    (run_simulations : bool) (fs : FS)
    (acc : list ChartTestTask * list task.SimulationTask) (analysis_file_name : string)
    : list ChartTestTask * list task.SimulationTask :=
  let analysis :=
    load_anf_file (task.get_full_path simulation_project analysis_file_name) fs in
  fold_left (for_chart simulation_project run_simulations analysis_file_name) analysis acc.

(** [get_chart_test_tasks], on the file system the analysis files are read
    from. *)
Definition get_chart_test_tasks (simulation_project : task.SimulationProject)
    (run_simulations : bool) (filter working_directory_filter : option string) (fs : FS)
    : MultipleChartTestTasks :=
  let '(test_tasks, simulation_tasks) :=
    fold_left (for_analysis_file simulation_project run_simulations fs)
      (get_analysis_files simulation_project (or_else filter working_directory_filter))
      ([], []) in
  {| tasks := test_tasks;
     multiple_simulation_tasks :=
       {| task.tasks := simulation_tasks; task.project := simulation_project |} |}.

Definition update_for_analysis_file (simulation_project : task.SimulationProject) (fs : FS)
    (update_tasks : list ChartUpdateTask) (analysis_file_name : string)
    : list ChartUpdateTask :=
  let analysis :=
    load_anf_file (task.get_full_path simulation_project analysis_file_name) fs in
  fold_left
    (λ update_tasks chart,
       (update_tasks ++ [{| update_simulation_project := simulation_project;
                            update_analysis_file_name := analysis_file_name;
                            update_chart_name := name chart |}])%list)
    analysis update_tasks.

(** [get_update_chart_tasks]: the tasks handed to the batch of updates. *)
Definition get_update_chart_tasks (simulation_project : task.SimulationProject)
    (filter working_directory_filter : option string) (fs : FS) : list ChartUpdateTask :=
  fold_left (update_for_analysis_file simulation_project fs)
    (get_analysis_files simulation_project (or_else filter working_directory_filter)) [].

End builders.

Module ChartTestTask_strings.
(** [get_parameters_string] of the two chart tasks. *)
Definition test_parameters_string (self : ChartTestTask) : string :=
  analysis_file_name self +:+ ": " +:+ chart_name self.
Definition update_parameters_string (self : ChartUpdateTask) : string :=
  update_analysis_file_name self +:+ ": " +:+ update_chart_name self.
End ChartTestTask_strings.

End chart.

(** ** Specification vocabulary *)

(** Every character of a text satisfies a test. *)
Fixpoint str_all (P : ascii → bool) (s : string) : bool :=
  match s with
  | String c r => P c && str_all P r
  | "" => true
  end.

Definition one_line (s : string) : bool := str_all (re.in_cls re.Dot) s.

Definition digits (s : string) : bool := str_all is_digit s.

(** [t] occurs in [s]. *)
Definition occurs (t s : string) : Prop := ∃ a b, s = a +:+ t +:+ b.


(** The text a quantifier accepts, by its length. *)
Definition quant_ok (q : re.quant) (t : string) : Prop :=
  match q with
  | re.One => String.length t = 1%nat
  | re.Star => True
  | re.Plus => t ≠ ""
  end.

(** What it means for a pattern to match at the start of a text, whatever
    the order in which the alternatives are tried: each item takes a run of
    characters of its class, the groups are the runs of the capturing items,
    and [rest] is what follows the match. *)
Fixpoint matches (p : re.pattern) (s : string) (gs : list string) (rest : string) : Prop :=
  match p with
  | [] => gs = [] ∧ rest = s
  | re.Item g q k :: p' =>
      ∃ t s' gs', s = t +:+ s' ∧ str_all (re.in_cls k) t = true ∧ quant_ok q t ∧
                  matches p' s' gs' rest ∧ gs = (if g then t :: gs' else gs')
  end.

(** The pattern of a literal text. *)
Definition lit (l : string) : re.pattern :=
  map (λ c, re.Item false re.One (re.Lit c)) (list_ascii_of_string l).

Definition stops (k : re.cls) (s : string) : Prop :=
  match s with
  | String c _ => re.in_cls k c = false
  | "" => True
  end.

(** The text ends, or its line does. *)
Definition line_end (s : string) : Prop := stops re.Dot s.

(** [marker] does not occur in [pre +:+ marker] before its end: the marker
    that follows [pre] is the first one. *)
Definition first_at (marker pre : string) : Prop :=
  ∀ a b, pre +:+ marker = a +:+ marker +:+ b → b = "".

(** [marker] occurs in [marker +:+ s] at the start only. *)
Definition last_at (marker s : string) : Prop :=
  ∀ a b, marker +:+ s = a +:+ marker +:+ b → a = "".

(** The lines the result of a simulation is read from. *)
Definition time_limit_line (s t d : string) : Prop :=
  ∃ pre post,
    s = pre +:+ "<!> Simulation time limit reached -- at t=" +:+ t +:+ ", event #" +:+ d +:+ post
    ∧ one_line t = true ∧ digits d = true ∧ d ≠ "".

Definition error_in_module_line (s m d : string) : Prop :=
  ∃ pre post,
    s = pre +:+ "<!> Error: " +:+ m +:+ " -- in module " +:+ d +:+ post
    ∧ one_line m = true ∧ one_line d = true.

Definition error_line (s m : string) : Prop :=
  ∃ pre post, s = pre +:+ "<!> Error: " +:+ m +:+ post ∧ one_line m = true.

(** The patterns of the sources, as the matcher sees them. *)
Definition time_limit_pattern : re.pattern :=
  (lit "<!> Simulation time limit reached -- at t=" ++ re.Item true re.Star re.Dot
   :: lit ", event #" ++ [re.Item true re.Plus re.Digit])%list.

Definition error_in_module_pattern : re.pattern :=
  (lit "<!> Error: " ++ re.Item true re.Star re.Dot
   :: lit " -- in module " ++ [re.Item true re.Star re.Dot])%list.

Definition error_pattern : re.pattern :=
  (lit "<!> Error: " ++ [re.Item true re.Star re.Dot])%list.

Definition home_pattern : re.pattern :=
  (re.Item false re.Star re.Dot :: lit "/home/" ++ [re.Item false re.Star re.Dot])%list.

Definition not_char (c : ascii) (s : string) : bool :=
  str_all (λ x, negb (Ascii.eqb x c)) s.


(** A project under a home directory, one of its configurations and a
    task on it, for the examples. *)
Definition demo_project : task.SimulationProject :=
  {| task.get_full_path := λ path, "/home/user/inet/" +:+ path |}.

Definition demo_config : task.SimulationConfig :=
  {| task.simulation_project := demo_project;
     task.working_directory := "examples/ethernet";
     task.ini_file := "omnetpp.ini";
     task.config := "General" |}.

Definition demo_task : task.SimulationTask :=
  {| task.simulation_config := demo_config; task._run := 0; task.mode := "release";
     task.user_interface := "Cmdenv"; task.sim_time_limit := Some (task.Fixed "10s");
     task.cpu_time_limit := None; task.record_eventlog := false;
     task.record_pcap := false |}.

(** A runner that reports a given exit status and the encodings of two
    texts as its output. *)
Definition demo_runner (rc : Z) (out err : string)
    : task.SimulationTask → list string → task.runner.SubprocessResult :=
  λ _ _, {| task.runner.returncode := rc; task.runner.stdout := encoded out;
            task.runner.stderr := encoded err |}.

(** The four fields read from the output [out] and the error output [err]
    of a run that exits with a given status. *)
Definition parsed_fields (rc : Z) (result out err : string)
    : outcome (option Z * option string * option string * option string) :=
  r ← task.SimulationTaskResult.__init__ demo_task result
         (Some (demo_runner rc out err demo_task [])) None;
  mret (task.last_event_number r, task.last_simulation_time r,
        task.error_message r, task.error_module r).

(** A project outside every home directory. *)
Definition scratch_config : task.SimulationConfig :=
  {| task.simulation_project := {| task.get_full_path := λ path, "/srv/inet/" +:+ path |};
     task.working_directory := "examples/ethernet";
     task.ini_file := "omnetpp.ini";
     task.config := "General" |}.

(** The chart of the requested name that the loop reaches first. *)
Definition find_chart (chart_name : string) (charts : list chart.Chart) : option chart.Chart :=
  List.find (λ c, String.eqb (chart.name c) chart_name) charts.

(** An analysis with five charts, for the examples: a declared name, an
    empty one, [None], no declaration, and a name with the suffix inside. *)
Definition chart_throughput : chart.Chart :=
  {| chart.name := "throughput";
     chart.properties := {[ "image_export_filename" := PyStr "throughput" ]} |}.

Definition chart_delay : chart.Chart :=
  {| chart.name := "delay";
     chart.properties := {[ "image_export_filename" := PyStr EmptyString ]} |}.

Definition chart_jitter : chart.Chart :=
  {| chart.name := "jitter";
     chart.properties := {[ "image_export_filename" := PyNone ]} |}.

Definition chart_loss : chart.Chart :=
  {| chart.name := "loss"; chart.properties := ∅ |}.

Definition chart_renewal : chart.Chart :=
  {| chart.name := "renewal";
     chart.properties := {[ "image_export_filename" := PyStr "a_new_b" ]} |}.

Definition demo_charts : list chart.Chart :=
  [chart_throughput; chart_delay; chart_jitter; chart_loss; chart_renewal].

Definition demo_scave : chart.Scave :=
  {| chart.load_anf_file := λ _ _, demo_charts;
     chart.render := λ c _, "image of " +:+ chart.name c |}.

(** A stand-in for the image libraries.  A file is an image when it is not
    empty; its pixels are its bytes up to the first semicolon, what follows
    being ancillary data; the shape of an image is the number of its pixels,
    and the error of two images of one shape is 0 when the pixels are equal
    and 1 otherwise. *)
Fixpoint pixels (content : string) : string :=
  match content with
  | String c r => if Ascii.eqb c ";" then EmptyString else String c (pixels r)
  | EmptyString => EmptyString
  end.

Definition demo_imaging : chart.Imaging :=
  {| chart.image := string;
     chart.metric := nat;
     chart.read_image := λ content,
       if String.eqb content "" then Raised (OSError "cannot identify image file")
       else Returned (pixels content);
     chart.rmse := λ a b,
       if Nat.eqb (String.length a) (String.length b)
       then Returned (if String.eqb a b then 0%nat else 1%nat)
       else Raised (AssertionError "Supplied images have different sizes");
     chart.metric_is_zero := λ m, Nat.eqb m 0;
     chart.str_of_metric := λ m, str_of_int (Z.of_nat m) |}.

Definition demo_test (chart_name : string) : chart.ChartTestTask :=
  {| chart.simulation_project := demo_project;
     chart.analysis_file_name := "showcases/coexistence/Coexistence.anf";
     chart.chart_name := chart_name |}.


Definition demo_media : string := "/home/user/inet/showcases/coexistence/doc/media/".

(** The names of the two image files of a chart whose declared name is
    [declared], as the two tasks compute them: the name the rendering
    returns for the candidate, its path, and the path of the baseline. *)
Definition file_name (declared : string) : string :=
  "doc/media" +:+ "/" +:+ (declared +:+ "_new") +:+ "." +:+ "png".

Definition new_file_name (folder declared : string) : string :=
  os_path.join folder (file_name declared).

Definition old_file_name (folder declared : string) : string :=
  os_path.join folder (re.sub "_new" EmptyString (file_name declared)).


(** The folder of the analysis file of a task. *)
Definition folder_of (project : task.SimulationProject) (analysis_file_name : string) : string :=
  os_path.dirname (task.get_full_path project analysis_file_name).

(** What a run leaves: the result code, the expected code and the reason, or
    the exception, and the files. *)
Definition summary {T : Type} (x : outcome (chart.TaskResult T) * FS)
    : outcome (string * option string * option string) * list (string * string) :=
  (match x.1 with
   | Returned r => Returned (chart.result r, chart.expected_result r, chart.reason r)
   | Raised e => Raised e
   end, map_to_list x.2).

(** A batch of chart tests over one simulation, and a framework for it: the
    batch of simulations rolls up to a given code and reason, the base class
    runs no test, and the star imports bind no name. *)
Definition demo_batch : chart.MultipleChartTestTasks :=
  {| chart.tasks := [demo_test "throughput"];
     chart.multiple_simulation_tasks :=
       {| task.tasks := [demo_task]; task.project := demo_project |} |}.

Definition demo_framework (code : string) (reason : option string) : chart.Framework :=
  {| chart.simulations_run_protected := λ _ fs,
       (Returned {| chart.MultipleTaskResults.results := [];
                    chart.MultipleTaskResults.result := code;
                    chart.MultipleTaskResults.reason := reason |}, fs);
     chart.super_run_protected := λ _ fs,
       (Returned {| chart.MultipleTaskResults.results := [];
                    chart.MultipleTaskResults.result := "PASS";
                    chart.MultipleTaskResults.reason := None |}, fs);
     chart.imported := λ _, None |}.

(** The results directory of a configuration, as the cleanup resolves it. *)
Definition results_path (simulation_config : task.SimulationConfig) : string :=
  os_path.join
    (task.get_full_path (task.simulation_project simulation_config)
       (task.working_directory simulation_config)) "results".

(** A second configuration of the project under the home directory, a
    discovery that finds both, and a system whose simulator asks a question. *)
Definition demo_config_wifi : task.SimulationConfig :=
  {| task.simulation_project := demo_project;
     task.working_directory := "examples/wireless";
     task.ini_file := "wifi.ini";
     task.config := "Wifi" |}.

Definition demo_discovery : task.Discovery :=
  {| task.get_simulation_configs := λ _ _, [demo_config; demo_config_wifi];
     task.num_runs := λ c, if String.eqb (task.config c) "General" then 2 else 3;
     task.default_project := demo_project |}.



Definition demo_workspace : chart.Workspace :=
  {| chart.get_analysis_files := λ _ _, ["showcases/coexistence/Coexistence.anf"];
     chart.relpath := λ _ _, "showcases/coexistence";
     chart.get_statistical_result_sim_time_limit := λ _ _, "5s";
     chart.config_eq := λ a b,
       String.eqb (task.working_directory a) (task.working_directory b)
       && String.eqb (task.ini_file a) (task.ini_file b)
       && String.eqb (task.config a) (task.config b) |}.

(** No two tasks of a list are for the same configuration and run, and a
    task is represented in a list, by itself or by one of the same
    configuration and run. *)
Definition distinct_runs `{!chart.Workspace} (l : list task.SimulationTask) : Prop :=
  ∀ i j a b, (i < j)%nat → l !! i = Some a → l !! j = Some b → chart.same_run a b = false.

Definition represented `{!chart.Workspace} (t : task.SimulationTask)
    (l : list task.SimulationTask) : Prop :=
  ∃ e, e ∈ l ∧ (e = t ∨ chart.same_run e t = true).

(** The tasks of the charts of an analysis file. *)
Definition update_task_of (simulation_project : task.SimulationProject)
    (analysis_file_name : string) (c : chart.Chart) : chart.ChartUpdateTask :=
  {| chart.update_simulation_project := simulation_project;
     chart.update_analysis_file_name := analysis_file_name;
     chart.update_chart_name := chart.name c |}.

Definition test_task_of (simulation_project : task.SimulationProject)
    (analysis_file_name : string) (c : chart.Chart) : chart.ChartTestTask :=
  {| chart.simulation_project := simulation_project;
     chart.analysis_file_name := analysis_file_name;
     chart.chart_name := chart.name c |}.

(** ** Texts *)

#[local] Arguments String.append !_ _ / : simpl nomatch.

Lemma str_app_nil_r (s : string) : s +:+ "" = s.
Proof. induction s as [|c s IH]; simpl; [done | by rewrite IH]. Qed.

Lemma str_app_assoc (a b c : string) : (a +:+ b) +:+ c = a +:+ b +:+ c.
Proof. induction a as [|x a IH]; simpl; [done | by rewrite IH]. Qed.

Lemma str_app_snoc (a : string) (c : ascii) (b : string) :
  (a +:+ String c "") +:+ b = a +:+ String c b.
Proof. by rewrite str_app_assoc. Qed.

Lemma str_length_app (a b : string) :
  String.length (a +:+ b) = (String.length a + String.length b)%nat.
Proof. induction a as [|x a IH]; simpl; [done | by rewrite IH]. Qed.

Lemma str_app_inv_head (a b c : string) : a +:+ b = a +:+ c → b = c.
Proof. induction a as [|x a IH]; simpl; [done | intros [=]; auto]. Qed.

Lemma str_all_app (P : ascii → bool) (a b : string) :
  str_all P (a +:+ b) = str_all P a && str_all P b.
Proof. induction a as [|x a IH]; simpl; [done | by rewrite IH, andb_assoc]. Qed.

Lemma length_one (t : string) : String.length t = 1%nat → ∃ c, t = String c "".
Proof. destruct t as [|c [|]]; simpl; try done. eauto. Qed.

(** ** The matcher finds a match exactly when there is one *)

Lemma greedy_sound k cont taken s r :
  re.greedy k cont taken s = Some r →
  ∃ t s', s = t +:+ s' ∧ str_all (re.in_cls k) t = true ∧ cont (taken +:+ t) s' = Some r.
Proof.
  revert taken. induction s as [|c s IH]; intros taken; simpl.
  - intros Hc. exists "", "". rewrite !str_app_nil_r. by split_and!.
  - destruct (re.in_cls k c) eqn:Hk.
    + destruct (re.greedy k cont (taken +:+ String c "") s) as [r'|] eqn:Hg.
      * intros [= <-]. destruct (IH _ Hg) as (t & s' & -> & Ht & Hc).
        exists (String c t), s'. simpl. rewrite Hk, Ht. split_and!; try done.
        by rewrite str_app_snoc in Hc.
      * intros Hc. exists "", (String c s). rewrite !str_app_nil_r. by split_and!.
    + intros Hc. exists "", (String c s). rewrite !str_app_nil_r. by split_and!.
Qed.

Lemma greedy_fallback k cont taken s :
  re.greedy k cont taken s = None → cont taken s = None.
Proof.
  destruct s as [|c s]; simpl; [done|].
  destruct (re.in_cls k c); [|done].
  by destruct (re.greedy k cont (taken +:+ String c "") s).
Qed.

Lemma greedy_complete k cont taken t s' :
  str_all (re.in_cls k) t = true →
  is_Some (cont (taken +:+ t) s') →
  is_Some (re.greedy k cont taken (t +:+ s')).
Proof.
  revert taken. induction t as [|c t IH]; intros taken; simpl.
  - intros _ Hc. rewrite str_app_nil_r in Hc.
    destruct (re.greedy k cont taken s') eqn:Hg; [done|].
    apply greedy_fallback in Hg. rewrite Hg in Hc. by destruct Hc.
  - intros [Hk Ht]%andb_prop Hc. rewrite Hk.
    rewrite <- str_app_snoc in Hc. specialize (IH _ Ht Hc).
    destruct IH as [r ->]. done.
Qed.

Lemma match_here_sound p s gs rest :
  re.match_here p s = Some (gs, rest) → matches p s gs rest.
Proof.
  revert s gs rest. induction p as [|[g q k] p IH]; intros s gs rest; simpl.
  - by intros [= <- <-].
  - destruct q.
    + destruct s as [|c s]; [done|]. destruct (re.in_cls k c) eqn:Hk; [|done].
      destruct (re.match_here p s) as [[gs' r]|] eqn:Hm; [|done].
      intros [= <- <-]. exists (String c ""), s, gs'. simpl. rewrite Hk.
      split_and!; auto.
    + intros (t & s' & -> & Ht & Hc)%greedy_sound. simpl in Hc.
      destruct (re.match_here p s') as [[gs' r]|] eqn:Hm; [|done].
      injection Hc as <- <-. exists t, s', gs'. by split_and!; auto.
    + destruct s as [|c s]; [done|]. destruct (re.in_cls k c) eqn:Hk; [|done].
      intros (t & s' & -> & Ht & Hc)%greedy_sound. simpl in Hc.
      destruct (re.match_here p s') as [[gs' r]|] eqn:Hm; [|done].
      injection Hc as <- <-. exists (String c t), s', gs'. simpl. rewrite Hk, Ht.
      by split_and!; auto.
Qed.

Lemma match_here_complete p s gs rest :
  matches p s gs rest → is_Some (re.match_here p s).
Proof.
  revert s gs. induction p as [|[g q k] p IH]; intros s gs; simpl.
  - done.
  - intros (t & s' & gs' & -> & Ht & Hq & Hm & _).
    destruct (IH _ _ Hm) as [[gs1 r1] Hr]. destruct q; simpl in Hq.
    + apply length_one in Hq as [c ->]. simpl in *.
      apply andb_prop in Ht as [-> _]. by rewrite Hr.
    + apply greedy_complete; [done|]. by rewrite Hr.
    + destruct t as [|c t]; [done|]. simpl in *.
      apply andb_prop in Ht as [-> Ht].
      apply (greedy_complete _ _ (String c "") t s'); [done|]. by rewrite Hr.
Qed.

Lemma search_pattern_sound p s gs :
  re.search_pattern p s = Some gs →
  ∃ pre s1 rest, s = pre +:+ s1 ∧ matches p s1 gs rest.
Proof.
  induction s as [|c s IH]; simpl.
  - destruct (re.match_here p "") as [[gs' r]|] eqn:Hm; [|done].
    intros [= <-]. exists "", "", r. eauto using match_here_sound.
  - destruct (re.match_here p (String c s)) as [[gs' r]|] eqn:Hm.
    + intros [= <-]. exists "", (String c s), r. eauto using match_here_sound.
    + intros (pre & s1 & rest & -> & Hm')%IH. by exists (String c pre), s1, rest.
Qed.

Lemma search_pattern_complete p pre s1 gs rest :
  matches p s1 gs rest → is_Some (re.search_pattern p (pre +:+ s1)).
Proof.
  intros Hm. apply match_here_complete in Hm.
  induction pre as [|c pre IH]; simpl.
  - destruct s1; simpl; by destruct Hm as [[] ->].
  - destruct (re.match_here p (String c (pre +:+ s1))) as [[]|]; [done|]. exact IH.
Qed.

Lemma str_app_eq_app (a b c d : string) :
  a +:+ b = c +:+ d →
  (∃ e, a = c +:+ e ∧ d = e +:+ b) ∨ (∃ e, c = a +:+ e ∧ b = e +:+ d).
Proof.
  revert c. induction a as [|x a IH]; intros c; simpl.
  - intros ->. right. by exists c.
  - destruct c as [|y c]; simpl.
    + intros <-. left. by exists (String x a).
    + intros [= -> Heq]. destruct (IH _ Heq) as [(e & -> & ->)|(e & -> & ->)];
        [left | right]; by exists e.
Qed.

Lemma str_all_app_l P a b : str_all P (a +:+ b) = true → str_all P a = true.
Proof. rewrite str_all_app. by intros [? ?]%andb_prop. Qed.

Lemma str_all_app_r P a b : str_all P (a +:+ b) = true → str_all P b = true.
Proof. rewrite str_all_app. by intros [? ?]%andb_prop. Qed.

(** ** Literal runs of a pattern *)

Lemma lit_cons c l : lit (String c l) = re.Item false re.One (re.Lit c) :: lit l.
Proof. reflexivity. Qed.

Lemma matches_lit l p s gs rest :
  matches (lit l ++ p)%list s gs rest ↔ ∃ s', s = l +:+ s' ∧ matches p s' gs rest.
Proof.
  revert s. induction l as [|c l IH]; intros s.
  - simpl. split; [by eauto | by intros (s' & -> & ?)].
  - rewrite lit_cons. simpl. split.
    + intros (t & s' & gs' & -> & Ht & Hq & Hm & ->).
      apply length_one in Hq as [x ->]. simpl in Ht.
      apply andb_prop in Ht as [Hx%Ascii.eqb_eq _]. subst x.
      apply IH in Hm as (s'' & -> & Hm). by exists s''.
    + intros (s' & -> & Hm). exists (String c ""), (l +:+ s'), gs. simpl.
      rewrite Ascii.eqb_refl. split_and!; try done. apply IH. by exists s'.
Qed.

Lemma match_here_lit l p s : re.match_here (lit l ++ p)%list (l +:+ s) = re.match_here p s.
Proof.
  induction l as [|c l IH]; [done|].
  rewrite lit_cons. simpl. rewrite Ascii.eqb_refl, IH.
  by destruct (re.match_here p s) as [[]|].
Qed.

Lemma match_here_lit_none l p s :
  (∀ s', s ≠ l +:+ s') → re.match_here (lit l ++ p)%list s = None.
Proof.
  intros Hs. destruct (re.match_here (lit l ++ p)%list s) as [[gs rest]|] eqn:Hm; [|done].
  apply match_here_sound, matches_lit in Hm as (s' & -> & _). by destruct (Hs s').
Qed.

(** ** Greedy repetition: where it stops *)

Lemma greedy_stop k cont taken s : stops k s → re.greedy k cont taken s = cont taken s.
Proof. destruct s as [|c s]; simpl; [done|]. by intros ->. Qed.

(** A success further to the right wins. *)
Lemma greedy_further k cont taken t s r :
  str_all (re.in_cls k) t = true →
  re.greedy k cont (taken +:+ t) s = Some r →
  re.greedy k cont taken (t +:+ s) = Some r.
Proof.
  revert taken. induction t as [|c t IH]; intros taken; simpl.
  - by rewrite str_app_nil_r.
  - intros [Hk Ht]%andb_prop Hg. rewrite Hk.
    rewrite <- str_app_snoc in Hg. by rewrite (IH _ Ht Hg).
Qed.

(** When no longer run is followed by a match, the repetition gives back
    what it took. *)
Lemma greedy_give_back k cont taken u s :
  str_all (re.in_cls k) u = true → stops k s →
  (∀ u1 u2, u = u1 +:+ u2 → u1 ≠ "" → cont (taken +:+ u1) (u2 +:+ s) = None) →
  re.greedy k cont taken (u +:+ s) = cont taken (u +:+ s).
Proof.
  revert taken. induction u as [|c u IH]; intros taken; simpl.
  - intros _ Hs _. by apply greedy_stop.
  - intros [Hk Hu]%andb_prop Hs Hno. rewrite Hk.
    rewrite IH; [|done|done|].
    + by rewrite (Hno (String c "") u).
    + intros u1 u2 -> Hu1. rewrite str_app_snoc.
      by apply (Hno (String c u1) u2).
Qed.

Lemma greedy_exact k cont taken t u s r :
  str_all (re.in_cls k) t = true → str_all (re.in_cls k) u = true → stops k s →
  (∀ u1 u2, u = u1 +:+ u2 → u1 ≠ "" → cont (taken +:+ t +:+ u1) (u2 +:+ s) = None) →
  cont (taken +:+ t) (u +:+ s) = Some r →
  re.greedy k cont taken (t +:+ u +:+ s) = Some r.
Proof.
  intros Ht Hu Hs Hno Hr. apply greedy_further; [done|].
  rewrite greedy_give_back; try done.
  intros u1 u2 Hu12 Hu1. rewrite str_app_assoc. by apply Hno.
Qed.

(** Skipping the start positions at which the pattern does not match. *)
Lemma search_pattern_skip p pre s :
  (∀ a b, pre = a +:+ b → b ≠ "" → re.match_here p (b +:+ s) = None) →
  re.search_pattern p (pre +:+ s) = re.search_pattern p s.
Proof.
  induction pre as [|c pre IH]; [done|]. intros Hno. simpl.
  pose proof (Hno "" (String c pre) eq_refl) as Hc. simpl in Hc.
  rewrite Hc; [|done].
  apply IH. intros a b -> Hb. by apply (Hno (String c a) b).
Qed.

Lemma first_at_skip marker p pre s :
  first_at marker pre →
  (∀ a b, pre = a +:+ b → b ≠ "" → re.match_here (lit marker ++ p)%list (b +:+ marker +:+ s) = None).
Proof.
  intros Hfirst a b -> Hb. apply match_here_lit_none. intros s' Heq.
  assert (∃ e, b +:+ marker = marker +:+ e ∧ e ≠ "") as (e & He & Hne).
  { rewrite <- str_app_assoc in Heq.
    apply str_app_eq_app in Heq as [(e & He & _)|(e & He & _)].
    - exists e. split; [done|]. intros ->.
      apply (f_equal String.length) in He. rewrite !str_length_app in He.
      destruct b; [done|]. simpl in He. lia.
    - apply (f_equal String.length) in He. rewrite !str_length_app in He.
      destruct b; [done|]. simpl in He. lia. }
  apply Hne, (Hfirst a). by rewrite str_app_assoc, He.
Qed.

Lemma first_at_head c tl pre :
  not_char c pre = true → not_char c tl = true → first_at (String c tl) pre.
Proof.
  unfold not_char. intros Hpre Htl. induction pre as [|x pre IH]; intros a b; simpl.
  - intros Heq. apply (f_equal String.length) in Heq.
    destruct b; [done|].
    repeat (rewrite str_length_app in Heq || simpl in Heq). lia.
  - simpl in Hpre. apply andb_prop in Hpre as [Hx Hpre].
    destruct a as [|y a]; simpl.
    + intros [= -> _]. by rewrite Ascii.eqb_refl in Hx.
    + intros [= _ Heq]. by apply (IH Hpre a b).
Qed.

Lemma str_all_impl (P Q : ascii → bool) s :
  (∀ c, P c = true → Q c = true) → str_all P s = true → str_all Q s = true.
Proof.
  intros HPQ. induction s as [|c s IH]; simpl; [done|].
  intros [Hc Hs]%andb_prop. by rewrite (HPQ _ Hc), IH.
Qed.

Lemma digit_not_newline c : is_digit c = true → re.in_cls re.Dot c = true.
Proof.
  unfold is_digit. simpl. intros [H1 H2]%andb_prop.
  destruct (Ascii.eqb_spec c re.newline) as [->|]; [|done].
  by vm_compute in H1.
Qed.

Lemma digits_one_line d : digits d = true → one_line d = true.
Proof. apply str_all_impl, digit_not_newline. Qed.

Lemma digit_not_comma c : is_digit c = true → negb (Ascii.eqb c ",") = true.
Proof.
  unfold is_digit. simpl. intros [H1 H2]%andb_prop.
  destruct (Ascii.eqb_spec c ",") as [->|]; [|done].
  by vm_compute in H1.
Qed.

Lemma line_end_not_digit s : line_end s → stops re.Digit s.
Proof.
  destruct s as [|c s]; simpl; [done|].
  intros Hc%negb_false_iff%Ascii.eqb_eq. by subst c.
Qed.

Lemma int_digits_some d acc : digits d = true → is_Some (int_digits acc d).
Proof.
  revert acc. induction d as [|c d IH]; intros acc; simpl; [done|].
  intros [-> Hd]%andb_prop. by apply IH.
Qed.

Lemma digit_run_digits d : digits d = true → digit_run d = String.length d.
Proof.
  induction d as [|c d IH]; simpl; [done|].
  intros [Hc Hd]%andb_prop. unfold is_digit in *. rewrite Hc. f_equal. by apply IH.
Qed.

Lemma int_short d :
  digits d = true → d ≠ "" → Z.of_nat (String.length d) ≤ sys.int_max_str_digits →
  ∃ n, int d = Returned n.
Proof.
  intros Hd Hne Hlen. unfold int. rewrite (digit_run_digits _ Hd).
  destruct (Z.ltb_spec sys.int_max_str_digits (Z.of_nat (String.length d))); [lia|].
  destruct d as [|c d]; [done|].
  destruct (int_digits_some (String c d) 0 Hd) as [n ->]. by exists n.
Qed.

Lemma int_long d :
  digits d = true → sys.int_max_str_digits < Z.of_nat (String.length d) →
  ∃ msg, int d = Raised (ValueError msg).
Proof.
  intros Hd Hlen. unfold int. rewrite (digit_run_digits _ Hd).
  destruct (Z.ltb_spec sys.int_max_str_digits (Z.of_nat (String.length d))); [|lia].
  by eexists.
Qed.

(** ** The patterns of the sources *)

#[local] Arguments matches : simpl never.

Lemma matches_item g q k p s gs rest :
  matches (re.Item g q k :: p) s gs rest ↔
  ∃ t s' gs', s = t +:+ s' ∧ str_all (re.in_cls k) t = true ∧ quant_ok q t ∧
              matches p s' gs' rest ∧ gs = (if g then t :: gs' else gs').
Proof. done. Qed.

Lemma matches_nil s gs rest : matches [] s gs rest ↔ gs = [] ∧ rest = s.
Proof. done. Qed.

Lemma compile_time_limit :
  re.compile "<!> Simulation time limit reached -- at t=(.*), event #(\d+)"
  = Some time_limit_pattern.
Proof. reflexivity. Qed.

Lemma compile_error_in_module :
  re.compile "<!> Error: (.*) -- in module (.*)" = Some error_in_module_pattern.
Proof. reflexivity. Qed.

Lemma compile_error : re.compile "<!> Error: (.*)" = Some error_pattern.
Proof. reflexivity. Qed.

Lemma compile_home : re.compile ".*/home/.*" = Some home_pattern.
Proof. reflexivity. Qed.

Lemma matches_time_limit s gs rest :
  matches time_limit_pattern s gs rest ↔
  ∃ t d, gs = [t; d]
         ∧ s = "<!> Simulation time limit reached -- at t=" +:+ t +:+ ", event #" +:+ d +:+ rest
         ∧ one_line t = true ∧ digits d = true ∧ d ≠ "".
Proof.
  unfold time_limit_pattern. split.
  - intros (s1 & -> & Hm)%matches_lit.
    apply matches_item in Hm as (t & s2 & gs1 & -> & Ht & _ & Hm & ->).
    apply matches_lit in Hm as (s3 & -> & Hm).
    apply matches_item in Hm as (d & s4 & gs2 & -> & Hd & Hq & [-> ->]%matches_nil & ->).
    by exists t, d.
  - intros (t & d & -> & -> & Ht & Hd & Hne).
    apply matches_lit. eexists. split; [done|].
    apply matches_item. exists t, (", event #" +:+ d +:+ rest), [d]. split_and!; try done.
    apply matches_lit. eexists. split; [done|].
    apply matches_item. exists d, rest, []. by split_and!.
Qed.

Lemma search_time_limit_sound s m :
  re.search "<!> Simulation time limit reached -- at t=(.*), event #(\d+)" s = Some m →
  ∃ t d, m = [t; d] ∧ time_limit_line s t d.
Proof.
  unfold re.search. rewrite compile_time_limit.
  intros (pre & s1 & rest & -> & Hm)%search_pattern_sound.
  apply matches_time_limit in Hm as (t & d & -> & -> & Ht & Hd & Hne).
  exists t, d. split; [done|]. by exists pre, rest.
Qed.

Lemma search_time_limit_complete s t d :
  time_limit_line s t d →
  is_Some (re.search "<!> Simulation time limit reached -- at t=(.*), event #(\d+)" s).
Proof.
  intros (pre & post & -> & Ht & Hd & Hne).
  unfold re.search. rewrite compile_time_limit.
  apply (search_pattern_complete _ _ _ [t; d] post), matches_time_limit.
  by exists t, d.
Qed.

Lemma search_pattern_here p s gs r :
  re.match_here p s = Some (gs, r) → re.search_pattern p s = Some gs.
Proof. intros Hm. destruct s; simpl; by rewrite Hm. Qed.

Lemma match_here_star g k p s :
  re.match_here (re.Item g re.Star k :: p) s
  = re.greedy k (λ taken rest,
      match re.match_here p rest with
      | Some (gs, r) => Some (if g then taken :: gs else gs, r)
      | None => None
      end) "" s.
Proof. done. Qed.

Lemma match_here_star_last g k d post :
  str_all (re.in_cls k) d = true → stops k post →
  re.match_here [re.Item g re.Star k] (d +:+ post) = Some (if g then [d] else [], post).
Proof.
  intros Hd Hpost. rewrite match_here_star.
  apply greedy_further; [done|]. by rewrite greedy_stop.
Qed.

Lemma match_here_plus_last g k d post :
  str_all (re.in_cls k) d = true → d ≠ "" → stops k post →
  re.match_here [re.Item g re.Plus k] (d +:+ post) = Some (if g then [d] else [], post).
Proof.
  destruct d as [|c d]; [done|]. simpl. intros [-> Hd]%andb_prop _ Hpost.
  apply greedy_further; [done|]. by rewrite greedy_stop.
Qed.

(** After a marker whose first character occurs nowhere else up to the end
    of the line, no later position starts with the marker. *)
Lemma no_later_head c tl d post u1 u2 s' :
  not_char c (tl +:+ d) = true →
  match post with String x _ => x ≠ c | "" => True end →
  String c tl +:+ d = u1 +:+ u2 → u1 ≠ "" → u2 +:+ post ≠ String c tl +:+ s'.
Proof.
  intros Hno Hpost Heq Hu1. destruct u1 as [|x u1]; [done|].
  simpl in Heq. injection Heq as <- Heq. rewrite Heq in Hno.
  apply str_all_app_r in Hno. destruct u2 as [|y u2]; simpl.
  - destruct post as [|x post]; [done|]. by intros [= ->].
  - intros [= -> _]. simpl in Hno. by rewrite Ascii.eqb_refl in Hno.
Qed.

Lemma search_time_limit_exact pre t d post :
  first_at "<!> Simulation time limit reached -- at t=" pre →
  one_line t = true → digits d = true → d ≠ "" → line_end post →
  re.search "<!> Simulation time limit reached -- at t=(.*), event #(\d+)"
    (pre +:+ "<!> Simulation time limit reached -- at t=" +:+ t +:+ ", event #" +:+ d +:+ post)
  = Some [t; d].
Proof.
  intros Hpre Ht Hd Hne Hpost. unfold re.search. rewrite compile_time_limit.
  unfold time_limit_pattern.
  rewrite search_pattern_skip by (by apply first_at_skip).
  apply (search_pattern_here _ _ _ post).
  rewrite match_here_lit, match_here_star, <- (str_app_assoc ", event #" d post).
  apply greedy_exact; try done.
  - rewrite str_all_app. apply andb_true_intro. split; [done|]. by apply digits_one_line.
  - intros u1 u2 Heq Hu1. rewrite match_here_lit_none; [done|].
    intros s'. apply (no_later_head "," " event #" d post u1 u2 s'); try done.
    + unfold not_char. rewrite str_all_app. apply andb_true_intro. split; [done|].
      revert Hd. apply str_all_impl, digit_not_comma.
    + destruct post as [|x post]; [done|]. simpl in Hpost.
      apply negb_false_iff, Ascii.eqb_eq in Hpost. by subst x.
  - rewrite str_app_assoc, match_here_lit, match_here_plus_last; try done.
    by apply line_end_not_digit.
Qed.

(** ** The result of a simulation task *)

Lemma init_returned simulation_task result sr reason r :
  task.SimulationTaskResult.__init__ simulation_task result (Some sr) reason = Returned r →
  ∃ out err,
    decode (task.runner.stdout sr) = Returned out
    ∧ decode (task.runner.stderr sr) = Returned err
    ∧ task.result r = result ∧ task.reason r = reason
    ∧ match re.search "<!> Simulation time limit reached -- at t=(.*), event #(\d+)" out with
      | Some m =>
          ∃ t d n, m = [t; d] ∧ int d = Returned n
                   ∧ task.last_event_number r = Some n
                   ∧ task.last_simulation_time r = Some t
      | None => task.last_event_number r = None ∧ task.last_simulation_time r = None
      end
    ∧ task.error_module r
      = match re.search "<!> Error: (.*) -- in module (.*)" err with
        | Some g => Some (strip (re.group g 2))
        | None => None
        end
    ∧ task.error_message r
      = match re.search "<!> Error: (.*) -- in module (.*)" err with
        | Some g => Some (strip (re.group g 1))
        | None =>
            match re.search "<!> Error: (.*)" err with
            | Some g => Some (strip (re.group g 1))
            | None => None
            end
        end.
Proof.
  unfold task.SimulationTaskResult.__init__.
  destruct (decode (task.runner.stdout sr)) as [out|e]; [|done].
  destruct (decode (task.runner.stderr sr)) as [err|e]; [|done]. simpl.
  intros Hr. exists out, err. split; [done|]. split; [done|]. revert Hr.
  destruct (re.search _ out) as [m|] eqn:Hs.
  - destruct (search_time_limit_sound _ _ Hs) as (t & d & -> & _).
    change (re.group [t; d] 2) with d.
    destruct (int d) as [n|e] eqn:Hn; simpl; [|done].
    intros [= <-]. simpl. split_and!; try done.
    + by exists t, d, n.
    + by destruct (re.search _ err).
  - simpl. intros [= <-]. simpl. split_and!; try done.
    by destruct (re.search _ err).
Qed.

(** The construction goes through when both streams decode and no line of
    the output counts more events than the interpreter converts. *)
Lemma init_returns simulation_task result sr reason out err :
  decode (task.runner.stdout sr) = Returned out →
  decode (task.runner.stderr sr) = Returned err →
  (∀ t d, time_limit_line out t d → Z.of_nat (String.length d) ≤ sys.int_max_str_digits) →
  ∃ r, task.SimulationTaskResult.__init__ simulation_task result (Some sr) reason = Returned r.
Proof.
  intros Hout Herr Hshort. unfold task.SimulationTaskResult.__init__.
  rewrite Hout, Herr. simpl.
  destruct (re.search _ out) as [m|] eqn:Hs; simpl; [|by eexists].
  destruct (search_time_limit_sound _ _ Hs) as (t & d & -> & Hline).
  change (re.group [t; d] 2) with d.
  destruct Hline as (pre & post & Heq & Ht & Hd & Hne).
  destruct (int_short d Hd Hne) as [n ->].
  - apply (Hshort t). by exists pre, post.
  - simpl. by eexists.
Qed.

(** It raises when a stream does not decode, the standard output first, and
    when the count of events that is found has too many digits. *)
Lemma init_raises simulation_task result sr reason e :
  task.SimulationTaskResult.__init__ simulation_task result (Some sr) reason = Raised e ↔
  decode (task.runner.stdout sr) = Raised e
  ∨ (∃ out, decode (task.runner.stdout sr) = Returned out
            ∧ decode (task.runner.stderr sr) = Raised e)
  ∨ (∃ out err m,
       decode (task.runner.stdout sr) = Returned out
       ∧ decode (task.runner.stderr sr) = Returned err
       ∧ re.search "<!> Simulation time limit reached -- at t=(.*), event #(\d+)" out = Some m
       ∧ int (re.group m 2) = Raised e).
Proof.
  unfold task.SimulationTaskResult.__init__.
  destruct (decode (task.runner.stdout sr)) as [out|e1]; simpl.
  2:{ split; [intros [= ->]; by left|].
      intros [[= ->]|[(? & ? & _)|(? & ? & ? & ? & _)]]; done. }
  destruct (decode (task.runner.stderr sr)) as [err|e2]; simpl.
  2:{ split; [intros [= ->]; right; left; by exists out|].
      intros [?|[(? & _ & [= ->])|(? & ? & ? & _ & ? & _)]]; done. }
  destruct (re.search _ out) as [m|] eqn:Hs; simpl.
  - destruct (int (re.group m 2)) as [n|e3] eqn:Hn; simpl.
    + split; [done|].
      intros [?|[(? & _ & ?)|(? & ? & m' & [= <-] & _ & Hs' & Hn')]]; try done.
      rewrite Hs in Hs'. injection Hs' as <-. congruence.
    + split.
      * intros [= ->]. right. right. by exists out, err, m.
      * intros [?|[(? & _ & ?)|(? & ? & m' & [= <-] & _ & Hs' & Hn')]]; try done.
        rewrite Hs in Hs'. injection Hs' as <-. congruence.
  - split; [done|].
    intros [?|[(? & _ & ?)|(? & ? & m' & [= <-] & _ & Hs' & _)]]; try done.
    congruence.
Qed.

Lemma init_raises_long simulation_task result sr reason out err pre t d post :
  decode (task.runner.stdout sr) = Returned out →
  decode (task.runner.stderr sr) = Returned err →
  out = pre +:+ "<!> Simulation time limit reached -- at t=" +:+ t +:+ ", event #" +:+ d +:+ post →
  first_at "<!> Simulation time limit reached -- at t=" pre →
  one_line t = true → digits d = true → line_end post →
  sys.int_max_str_digits < Z.of_nat (String.length d) →
  ∃ msg, task.SimulationTaskResult.__init__ simulation_task result (Some sr) reason
         = Raised (ValueError msg).
Proof.
  intros Hout Herr Heq Hpre Ht Hd Hpost Hlen.
  destruct (int_long d Hd Hlen) as [msg Hmsg]. exists msg.
  apply init_raises. right. right. exists out, err, [t; d]. split_and!; try done.
  rewrite Heq. apply search_time_limit_exact; try done.
  intros ->. simpl in Hlen. unfold sys.int_max_str_digits in Hlen. lia.
Qed.





(** C8, as stated, fails.  A line of the standard output that reads as the
    claim gives it, without the marker that opens the pattern of the code,
    leaves both fields absent.  With the marker, an output that contains the
    text of the example and goes on with one more digit gives another count,
    and one with an earlier line of the same form gives the count and time of
    that line. *)
Lemma time_limit_without_marker :
  parsed_fields 0 "DONE" "Simulation time limit reached -- at t=12.5s, event #340" ""
  = Returned (None, None, None, None)
  ∧ parsed_fields 0 "DONE" "<!> Simulation time limit reached -- at t=12.5s, event #3401" ""
    = Returned (Some 3401, Some "12.5s", None, None)
  ∧ parsed_fields 0 "DONE"
      ("<!> Simulation time limit reached -- at t=1s, event #2" +:+ String re.newline
         "<!> Simulation time limit reached -- at t=12.5s, event #340") ""
    = Returned (Some 2, Some "1s", None, None).
Proof. split_and!; reflexivity. Qed.

(** C8 (amended): a result built from a captured subprocess result reads the
    decoded standard output with the pattern that starts with the marker
    [<!> Simulation time limit reached -- at t=], takes a time text that stays
    on the line, then [, event #] and a run of digits.  In every result that
    is built, the two fields are present exactly when the output has such a
    line, and then they are the time text and the value of the digits of
    such a line; both are absent otherwise.  When the first marker of the
    output is followed by a time text, [, event #], digits and the end of the
    line, the fields are that text and the value of those digits: so for the
    line with t=12.5s and event #340 they are 12.5s and 340.  The result is
    built whenever both streams decode and no such line counts more events
    than the interpreter converts; a stream that does not decode raises, and
    so does the count of the line that is read when it has too many
    digits. *)
Theorem time_limit_fields simulation_task result sr reason :
  (∀ r, task.SimulationTaskResult.__init__ simulation_task result (Some sr) reason
        = Returned r →
     ∃ out, decode (task.runner.stdout sr) = Returned out
       ∧ task.result r = result
       ∧ (is_Some (task.last_event_number r) ↔ ∃ t d, time_limit_line out t d)
       ∧ (task.last_event_number r = None ↔ task.last_simulation_time r = None)
       ∧ (∀ n t, task.last_event_number r = Some n → task.last_simulation_time r = Some t →
            ∃ d, time_limit_line out t d ∧ int d = Returned n)
       ∧ (∀ pre t d post,
            out
            = pre +:+ "<!> Simulation time limit reached -- at t=" +:+ t +:+ ", event #"
                  +:+ d +:+ post →
            first_at "<!> Simulation time limit reached -- at t=" pre →
            one_line t = true → digits d = true → d ≠ "" → line_end post →
            ∃ n, int d = Returned n
                 ∧ task.last_event_number r = Some n ∧ task.last_simulation_time r = Some t)
       ∧ (∀ pre post,
            out
            = pre +:+ "<!> Simulation time limit reached -- at t=12.5s, event #340" +:+ post →
            first_at "<!> Simulation time limit reached -- at t=" pre → line_end post →
            task.last_event_number r = Some 340 ∧ task.last_simulation_time r = Some "12.5s"))
  ∧ (∀ out err,
       decode (task.runner.stdout sr) = Returned out →
       decode (task.runner.stderr sr) = Returned err →
       (∀ t d, time_limit_line out t d →
               Z.of_nat (String.length d) ≤ sys.int_max_str_digits) →
       ∃ r, task.SimulationTaskResult.__init__ simulation_task result (Some sr) reason
            = Returned r)
  ∧ (∀ e, decode (task.runner.stdout sr) = Raised e →
       task.SimulationTaskResult.__init__ simulation_task result (Some sr) reason = Raised e)
  ∧ (∀ out err pre t d post,
       decode (task.runner.stdout sr) = Returned out →
       decode (task.runner.stderr sr) = Returned err →
       out
       = pre +:+ "<!> Simulation time limit reached -- at t=" +:+ t +:+ ", event #"
             +:+ d +:+ post →
       first_at "<!> Simulation time limit reached -- at t=" pre →
       one_line t = true → digits d = true → line_end post →
       sys.int_max_str_digits < Z.of_nat (String.length d) →
       ∃ msg, task.SimulationTaskResult.__init__ simulation_task result (Some sr) reason
              = Raised (ValueError msg)).
Proof.
  split_and!.
  - intros r (out & err & Hout & _ & Hres & _ & Hfields & _)%init_returned.
    assert (Hexact : ∀ pre t d post,
      out
      = pre +:+ "<!> Simulation time limit reached -- at t=" +:+ t +:+ ", event #"
            +:+ d +:+ post →
      first_at "<!> Simulation time limit reached -- at t=" pre →
      one_line t = true → digits d = true → d ≠ "" → line_end post →
      ∃ n, int d = Returned n
           ∧ task.last_event_number r = Some n ∧ task.last_simulation_time r = Some t).
    { intros pre t d post Heq Hpre Ht Hd Hne Hpost.
      rewrite Heq, (search_time_limit_exact pre t d post) in Hfields by done.
      destruct Hfields as (t' & d' & n & [= <- <-] & Hn & -> & ->). by exists n. }
    exists out. split; [done|]. split; [done|]. split_and!.
    + destruct (re.search _ out) as [m|] eqn:Hs.
      * destruct Hfields as (t & d & n & -> & Hn & -> & _).
        destruct (search_time_limit_sound _ _ Hs) as (t' & d' & [= <- <-] & Hline).
        split; [by exists t, d | done].
      * destruct Hfields as [-> _]. split; [by intros [? ?]|].
        intros (t & d & Hline). apply search_time_limit_complete in Hline.
        rewrite Hs in Hline. by destruct Hline.
    + destruct (re.search _ out) as [m|].
      * destruct Hfields as (t & d & n & _ & _ & -> & ->). done.
      * by destruct Hfields as [-> ->].
    + intros n t Hn Ht. destruct (re.search _ out) as [m|] eqn:Hs.
      * destruct Hfields as (t' & d & n' & -> & Hint & Hn' & Ht').
        destruct (search_time_limit_sound _ _ Hs) as (t'' & d'' & [= <- <-] & Hline).
        exists d. split; [congruence|]. congruence.
      * destruct Hfields as [Hnone _]. congruence.
    + exact Hexact.
    + intros pre post Heq Hpre Hpost.
      destruct (Hexact pre "12.5s" "340" post) as (n & Hn & -> & ->); try done.
      vm_compute in Hn. by injection Hn as <-.
  - intros out err. apply init_returns.
  - intros e He. apply init_raises. by left.
  - intros out err pre t d post. apply init_raises_long.
Qed.

Lemma time_limit_fields_witness :
  ∃ r, task.SimulationTaskResult.__init__ demo_task "DONE"
         (Some (demo_runner 0
                  ("** Event #339" +:+ String re.newline
                     "<!> Simulation time limit reached -- at t=12.5s, event #340" +:+
                     String re.newline "End.")
                  "" demo_task [])) None = Returned r
    ∧ task.result r = "DONE"
    ∧ task.last_event_number r = Some 340 ∧ task.last_simulation_time r = Some "12.5s".
Proof.
  destruct (time_limit_fields demo_task "DONE"
              (demo_runner 0
                 ("** Event #339" +:+ String re.newline
                    "<!> Simulation time limit reached -- at t=12.5s, event #340" +:+
                    String re.newline "End.")
                 "" demo_task []) None)
    as (Hfields & _).
  eexists. split; [reflexivity|].
  destruct (Hfields _ eq_refl) as (out & Hout & Hres & _ & _ & _ & _ & Hexample).
  injection Hout as <-. split; [exact Hres|].
  apply (Hexample ("** Event #339" +:+ String re.newline "") (String re.newline "End.")).
  - reflexivity.
  - apply first_at_head; reflexivity.
  - reflexivity.
Defined.

(** ** The error report *)

Lemma matches_error_in_module s gs rest :
  matches error_in_module_pattern s gs rest ↔
  ∃ m d, gs = [m; d]
         ∧ s = "<!> Error: " +:+ m +:+ " -- in module " +:+ d +:+ rest
         ∧ one_line m = true ∧ one_line d = true.
Proof.
  unfold error_in_module_pattern. split.
  - intros (s1 & -> & Hm)%matches_lit.
    apply matches_item in Hm as (m & s2 & gs1 & -> & Ht & _ & Hm & ->).
    apply matches_lit in Hm as (s3 & -> & Hm).
    apply matches_item in Hm as (d & s4 & gs2 & -> & Hd & _ & [-> ->]%matches_nil & ->).
    by exists m, d.
  - intros (m & d & -> & -> & Ht & Hd).
    apply matches_lit. eexists. split; [done|].
    apply matches_item. exists m, (" -- in module " +:+ d +:+ rest), [d]. split_and!; try done.
    apply matches_lit. eexists. split; [done|].
    apply matches_item. exists d, rest, []. by split_and!.
Qed.

Lemma matches_error s gs rest :
  matches error_pattern s gs rest ↔
  ∃ m, gs = [m] ∧ s = "<!> Error: " +:+ m +:+ rest ∧ one_line m = true.
Proof.
  unfold error_pattern. split.
  - intros (s1 & -> & Hm)%matches_lit.
    apply matches_item in Hm as (m & s2 & gs1 & -> & Ht & _ & [-> ->]%matches_nil & ->).
    by exists m.
  - intros (m & -> & -> & Ht).
    apply matches_lit. eexists. split; [done|].
    apply matches_item. exists m, rest, []. by split_and!.
Qed.

Lemma search_error_in_module_sound s g :
  re.search "<!> Error: (.*) -- in module (.*)" s = Some g →
  ∃ m d, g = [m; d] ∧ error_in_module_line s m d.
Proof.
  unfold re.search. rewrite compile_error_in_module.
  intros (pre & s1 & rest & -> & Hm)%search_pattern_sound.
  apply matches_error_in_module in Hm as (m & d & -> & -> & Hm & Hd).
  exists m, d. split; [done|]. by exists pre, rest.
Qed.

Lemma search_error_in_module_complete s m d :
  error_in_module_line s m d → is_Some (re.search "<!> Error: (.*) -- in module (.*)" s).
Proof.
  intros (pre & post & -> & Hm & Hd).
  unfold re.search. rewrite compile_error_in_module.
  apply (search_pattern_complete _ _ _ [m; d] post), matches_error_in_module.
  by exists m, d.
Qed.

Lemma search_error_sound s g :
  re.search "<!> Error: (.*)" s = Some g → ∃ m, g = [m] ∧ error_line s m.
Proof.
  unfold re.search. rewrite compile_error.
  intros (pre & s1 & rest & -> & Hm)%search_pattern_sound.
  apply matches_error in Hm as (m & -> & -> & Hm).
  exists m. split; [done|]. by exists pre, rest.
Qed.

Lemma search_error_complete s m :
  error_line s m → is_Some (re.search "<!> Error: (.*)" s).
Proof.
  intros (pre & post & -> & Hm).
  unfold re.search. rewrite compile_error.
  apply (search_pattern_complete _ _ _ [m] post), matches_error.
  by exists m.
Qed.

Lemma error_in_module_is_error s m d :
  error_in_module_line s m d → error_line s (m +:+ " -- in module " +:+ d).
Proof.
  intros (pre & post & -> & Hm & Hd). exists pre, post. split.
  - by rewrite !str_app_assoc.
  - unfold one_line in *. by rewrite !str_all_app, Hm, Hd.
Qed.

(** After a separator that occurs only once up to the end of the line, no
    later position starts with the separator. *)
Lemma no_later_marker sep d post u1 u2 s' :
  one_line sep = true → last_at sep d → line_end post →
  sep +:+ d = u1 +:+ u2 → u1 ≠ "" → u2 +:+ post ≠ sep +:+ s'.
Proof.
  intros Hsep Hlast Hpost Heq Hu1 Heq'.
  apply str_app_eq_app in Heq' as [(e & -> & _)|(e & He & Hpost')].
  - by apply Hu1, (Hlast u1 e).
  - destruct e as [|x e].
    + rewrite str_app_nil_r in He. subst u2.
      apply Hu1, (Hlast u1 ""). by rewrite str_app_nil_r.
    + subst post. simpl in Hpost. rewrite He in Hsep.
      apply str_all_app_r in Hsep. simpl in Hsep. by rewrite Hpost in Hsep.
Qed.

Lemma last_at_in_module d : not_char "-" d = true → last_at " -- in module " d.
Proof.
  intros Hd a b Heq. destruct a as [|x a]; [done|]. exfalso.
  simpl in Heq. injection Heq as _ Heq.
  destruct a as [|y a]; simpl in Heq; [done|]. injection Heq as _ Heq.
  destruct a as [|z a]; simpl in Heq; [done|]. injection Heq as _ Heq.
  assert (Hno : not_char "-" (" in module " +:+ d) = true).
  { unfold not_char in *. by rewrite str_all_app, Hd. }
  simpl in Hno. rewrite Heq in Hno. apply str_all_app_r in Hno. done.
Qed.

Lemma search_error_in_module_exact pre m d post :
  first_at "<!> Error: " pre → one_line m = true → one_line d = true →
  last_at " -- in module " d → line_end post →
  re.search "<!> Error: (.*) -- in module (.*)"
    (pre +:+ "<!> Error: " +:+ m +:+ " -- in module " +:+ d +:+ post)
  = Some [m; d].
Proof.
  intros Hpre Hm Hd Hlast Hpost. unfold re.search. rewrite compile_error_in_module.
  unfold error_in_module_pattern.
  rewrite search_pattern_skip by (by apply first_at_skip).
  apply (search_pattern_here _ _ _ post).
  rewrite match_here_lit, match_here_star, <- (str_app_assoc " -- in module " d post).
  apply greedy_exact; try done.
  - intros u1 u2 Heq Hu1. rewrite match_here_lit_none; [done|].
    intros s'. by apply (no_later_marker " -- in module " d post u1 u2 s').
  - by rewrite str_app_assoc, match_here_lit, match_here_star_last.
Qed.

Lemma search_error_exact pre m post :
  first_at "<!> Error: " pre → one_line m = true → line_end post →
  re.search "<!> Error: (.*)" (pre +:+ "<!> Error: " +:+ m +:+ post) = Some [m].
Proof.
  intros Hpre Hm Hpost. unfold re.search. rewrite compile_error. unfold error_pattern.
  rewrite search_pattern_skip by (by apply first_at_skip).
  apply (search_pattern_here _ _ _ post).
  by rewrite match_here_lit, match_here_star_last.
Qed.

(** C9, as stated, fails.  An error report that reads as the claim gives
    it, without the marker that opens both patterns of the code, is not
    found.  With the marker, what follows the module on the same line is part
    of the module that is read. *)
Lemma error_without_marker :
  parsed_fields 1 "ERROR" "" "Error: Queue overflow -- in module net.switch[3]"
  = Returned (None, None, None, None)
  ∧ parsed_fields 1 "ERROR" "" "<!> Error: Queue overflow -- in module net.switch[3] (id=5)"
    = Returned (None, None, Some "Queue overflow", Some "net.switch[3] (id=5)").
Proof. split_and!; reflexivity. Qed.

(** C9 (amended): a result built from a captured subprocess result reads the
    decoded standard error first with the pattern made of the marker
    [<!> Error: ], a message, [ -- in module ] and a module, both on one line:
    in every result that is built, the module is present exactly when the
    error output has such a report, and then message and module are the
    stripped texts of such a report.  Otherwise the pattern made of the
    marker [<!> Error: ] and a message is tried: the message is present
    exactly when the error output has such a report, and is its stripped
    text, and the module is absent.  When the first marker is followed by a
    message, the only [ -- in module ] of the line, a module and the end of
    the line, the fields are that message and that module, stripped: so for
    the report of Queue overflow in net.switch[3] they are these two texts.
    The result is built whenever both streams decode and no line of the
    output counts more events than the interpreter converts; an error output
    that does not decode raises. *)
Theorem error_fields simulation_task result sr reason :
  (∀ r, task.SimulationTaskResult.__init__ simulation_task result (Some sr) reason
        = Returned r →
     ∃ err, decode (task.runner.stderr sr) = Returned err
       ∧ (is_Some (task.error_module r) ↔ ∃ m d, error_in_module_line err m d)
       ∧ (∀ d', task.error_module r = Some d' →
            ∃ m d, error_in_module_line err m d
                   ∧ task.error_message r = Some (strip m) ∧ d' = strip d)
       ∧ (is_Some (task.error_message r) ↔ ∃ m, error_line err m)
       ∧ (task.error_module r = None → ∀ m', task.error_message r = Some m' →
            ∃ m, error_line err m ∧ m' = strip m)
       ∧ (∀ pre m d post,
            err = pre +:+ "<!> Error: " +:+ m +:+ " -- in module " +:+ d +:+ post →
            first_at "<!> Error: " pre → one_line m = true → one_line d = true →
            last_at " -- in module " d → line_end post →
            task.error_message r = Some (strip m) ∧ task.error_module r = Some (strip d))
       ∧ (∀ pre m post,
            err = pre +:+ "<!> Error: " +:+ m +:+ post →
            first_at "<!> Error: " pre → one_line m = true → line_end post →
            (∀ m1 d1, ¬ error_in_module_line err m1 d1) →
            task.error_message r = Some (strip m) ∧ task.error_module r = None)
       ∧ (∀ pre post,
            err = pre +:+ "<!> Error: Queue overflow -- in module net.switch[3]" +:+ post →
            first_at "<!> Error: " pre → line_end post →
            task.error_message r = Some "Queue overflow"
            ∧ task.error_module r = Some "net.switch[3]"))
  ∧ (∀ out err,
       decode (task.runner.stdout sr) = Returned out →
       decode (task.runner.stderr sr) = Returned err →
       (∀ t d, time_limit_line out t d →
               Z.of_nat (String.length d) ≤ sys.int_max_str_digits) →
       ∃ r, task.SimulationTaskResult.__init__ simulation_task result (Some sr) reason
            = Returned r)
  ∧ (∀ out e,
       decode (task.runner.stdout sr) = Returned out →
       decode (task.runner.stderr sr) = Raised e →
       task.SimulationTaskResult.__init__ simulation_task result (Some sr) reason = Raised e).
Proof.
  split_and!.
  - intros r (out & err & _ & Herr & _ & _ & _ & Hmod & Hmsg)%init_returned.
    assert (Hexact : ∀ pre m d post,
      err = pre +:+ "<!> Error: " +:+ m +:+ " -- in module " +:+ d +:+ post →
      first_at "<!> Error: " pre → one_line m = true → one_line d = true →
      last_at " -- in module " d → line_end post →
      task.error_message r = Some (strip m) ∧ task.error_module r = Some (strip d)).
    { intros pre m d post Heq Hpre Hm Hd Hlast Hpost.
      rewrite Heq, (search_error_in_module_exact pre m d post) in Hmod, Hmsg by done.
      done. }
    exists err. split; [done|]. split_and!.
    + rewrite Hmod. destruct (re.search _ err) as [g|] eqn:Hs.
      * destruct (search_error_in_module_sound _ _ Hs) as (m & d & -> & Hline).
        split; [by exists m, d | done].
      * split; [by intros [? ?]|]. intros (m & d & Hline).
        apply search_error_in_module_complete in Hline. rewrite Hs in Hline.
        by destruct Hline.
    + intros d'. rewrite Hmod, Hmsg.
      destruct (re.search _ err) as [g|] eqn:Hs; [|done].
      destruct (search_error_in_module_sound _ _ Hs) as (m & d & -> & Hline).
      intros [= <-]. by exists m, d.
    + rewrite Hmsg. destruct (re.search "<!> Error: (.*) -- in module (.*)" _) as [g|] eqn:Hs.
      * destruct (search_error_in_module_sound _ _ Hs) as (m & d & -> & Hline).
        split; [|done]. intros _. eexists. by apply error_in_module_is_error.
      * destruct (re.search "<!> Error: (.*)" _) as [g|] eqn:Hs'.
        -- destruct (search_error_sound _ _ Hs') as (m & -> & Hline).
           split; [by exists m | done].
        -- split; [by intros [? ?]|]. intros (m & Hline).
           apply search_error_complete in Hline. rewrite Hs' in Hline. by destruct Hline.
    + rewrite Hmod, Hmsg.
      destruct (re.search "<!> Error: (.*) -- in module (.*)" _) as [g|]; [done|].
      intros _ m'. destruct (re.search "<!> Error: (.*)" _) as [g|] eqn:Hs'; [|done].
      destruct (search_error_sound _ _ Hs') as (m & -> & Hline).
      intros [= <-]. by exists m.
    + exact Hexact.
    + intros pre m post Heq Hpre Hm Hpost Hnone. rewrite Hmod, Hmsg.
      destruct (re.search "<!> Error: (.*) -- in module (.*)" _) as [g|] eqn:Hs.
      * destruct (search_error_in_module_sound _ _ Hs) as (m1 & d1 & _ & Hline).
        by destruct (Hnone m1 d1).
      * by rewrite Heq, (search_error_exact pre m post).
    + intros pre post Heq Hpre Hpost.
      apply (Hexact pre "Queue overflow" "net.switch[3]" post); try done.
      by apply last_at_in_module.
  - intros out err. apply init_returns.
  - intros out e Hout He. apply init_raises. right. left. by exists out.
Qed.

Lemma error_fields_witness :
  ∃ r, task.SimulationTaskResult.__init__ demo_task "ERROR"
         (Some (demo_runner 1 ""
                  ("<!> Error: Queue overflow -- in module net.switch[3]" +:+
                     String re.newline "End.")
                  demo_task [])) (Some "Non-zero exit code") = Returned r
    ∧ task.error_message r = Some "Queue overflow"
    ∧ task.error_module r = Some "net.switch[3]".
Proof.
  destruct (error_fields demo_task "ERROR"
              (demo_runner 1 ""
                 ("<!> Error: Queue overflow -- in module net.switch[3]" +:+
                    String re.newline "End.")
                 demo_task []) (Some "Non-zero exit code"))
    as (Hfields & _).
  eexists. split; [reflexivity|].
  destruct (Hfields _ eq_refl) as (err & Herr & _ & _ & _ & _ & _ & _ & Hexample).
  injection Herr as <-.
  apply (Hexample "" (String re.newline "End.")).
  - reflexivity.
  - apply first_at_head; reflexivity.
  - reflexivity.
Defined.

(** ** The guard of the destructive cleanup *)

Lemma search_home path : is_Some (re.search ".*/home/.*" path) ↔ occurs "/home/" path.
Proof.
  unfold re.search. rewrite compile_home. unfold home_pattern. split.
  - intros [g (pre & s1 & rest & -> & Hm)%search_pattern_sound].
    apply matches_item in Hm as (t & s2 & gs1 & -> & _ & _ & Hm & _).
    apply matches_lit in Hm as (s3 & -> & _).
    exists (pre +:+ t), s3. by rewrite !str_app_assoc.
  - intros (a & b & ->).
    apply (search_pattern_complete _ _ _ [] b), matches_item.
    exists "", ("/home/" +:+ b), []. split_and!; try done.
    apply matches_lit. exists b. split; [done|].
    apply matches_item. exists "", b, []. by split_and!.
Qed.

Lemma clean_outside_home simulation_config fs :
  ¬ occurs "/home/"
      (os_path.join
         (task.get_full_path (task.simulation_project simulation_config)
            (task.working_directory simulation_config)) "results") →
  task.clean_simulation_results simulation_config fs
  = (Raised (Exception "Path is not in home"), fs).
Proof.
  intros Hout. unfold task.clean_simulation_results.
  destruct (re.search ".*/home/.*" _) as [g|] eqn:Hs; [|done].
  destruct Hout. apply search_home. by rewrite Hs.
Qed.

(** C7: when the results directory of a configuration, resolved against the
    project, has no [/home/] in its path, the cleanup raises and leaves the
    file system as it was, so a directory that existed still exists; the file
    system changes only when the path has the marker. *)
Theorem clean_simulation_results_guard simulation_config fs :
  let path :=
    os_path.join
      (task.get_full_path (task.simulation_project simulation_config)
         (task.working_directory simulation_config)) "results" in
  (¬ occurs "/home/" path →
   task.clean_simulation_results simulation_config fs
   = (Raised (Exception "Path is not in home"), fs)
   ∧ ∀ found fs', os.exists_ path fs = (Returned found, fs') →
       os.exists_ path (task.clean_simulation_results simulation_config fs).2
       = (Returned found, fs))
  ∧ (∀ o fs', task.clean_simulation_results simulation_config fs = (o, fs') →
       fs' ≠ fs → occurs "/home/" path).
Proof.
  intros path. split.
  - intros Hout. rewrite (clean_outside_home _ _ Hout). split; [done|].
    intros found fs'. simpl. unfold os.exists_. by intros [= <- _].
  - intros o fs' Hclean Hchanged.
    destruct (re.search ".*/home/.*" path) as [g|] eqn:Hs.
    + apply search_home. by rewrite Hs.
    + destruct Hchanged. unfold task.clean_simulation_results in Hclean.
      fold path in Hclean. rewrite Hs in Hclean. by injection Hclean as _ <-.
Qed.


(** ** The file names of a chart *)




Lemma compile_new : re.compile "_new" = Some (lit "_new").
Proof. reflexivity. Qed.

Lemma sub_from_length p k s :
  (String.length (re.sub_from p "" k s) ≤ String.length s)%nat.
Proof.
  revert k. induction s as [|c s IH]; intros k; simpl; [done|].
  destruct k as [|k].
  - destruct (re.match_here p (String c s)) as [[gs rest]|].
    + destruct (S (String.length s) - String.length rest)%nat as [|n] eqn:Hn.
      * simpl. specialize (IH 0%nat). lia.
      * specialize (IH n). lia.
    + simpl. specialize (IH 0%nat). lia.
  - specialize (IH k). lia.
Qed.

Lemma sub_from_shorter p x y :
  is_Some (re.match_here p y) →
  (∀ gs rest, re.match_here p y = Some (gs, rest) → String.length rest < String.length y)%nat →
  (String.length (re.sub_from p "" 0 (x +:+ y)) < String.length (x +:+ y))%nat.
Proof.
  intros [[gs rest] Hm] Hlt. specialize (Hlt _ _ Hm).
  induction x as [|c x IH]; simpl.
  - destruct y as [|c y]; simpl in *; [lia|]. rewrite Hm.
    destruct (S (String.length y) - String.length rest)%nat as [|n] eqn:Hn; [lia|].
    simpl. pose proof (sub_from_length p n y). lia.
  - destruct (re.match_here p (String c (x +:+ y))) as [[gs' rest']|].
    + destruct (S (String.length (x +:+ y)) - String.length rest')%nat as [|n].
      * simpl. lia.
      * simpl. pose proof (sub_from_length p n (x +:+ y)). lia.
    + simpl. lia.
Qed.

Lemma sub_file_name declared :
  re.sub "_new" "" (file_name declared)
  = "doc/media/" +:+ re.sub_from (lit "_new") "" 0 (declared +:+ "_new.png").
Proof.
  unfold re.sub, file_name. rewrite compile_new.
  by rewrite !(str_app_assoc declared).
Qed.

Lemma join_relative a :
  ∃ head, ∀ x, String.prefix "/" x = false → os_path.join a x = head +:+ x.
Proof.
  exists (if String.eqb a "" || os_path.ends_with_sep a then a else a +:+ "/").
  intros x Hx. unfold os_path.join. rewrite Hx.
  destruct (String.eqb a "" || os_path.ends_with_sep a); [done|].
  by rewrite str_app_assoc.
Qed.

Lemma file_names_differ folder declared :
  old_file_name folder declared ≠ new_file_name folder declared.
Proof.
  unfold old_file_name, new_file_name. rewrite sub_file_name.
  destruct (join_relative folder) as [head Hjoin].
  rewrite !Hjoin by done. intros Heq%String.app_inj.
  unfold file_name in Heq. simpl in Heq. injection Heq as Heq.
  rewrite !str_app_assoc in Heq. simpl in Heq.
  apply (f_equal String.length) in Heq.
  pose proof (sub_from_shorter (lit "_new") declared "_new.png") as Hlt.
  rewrite Heq in Hlt. apply Nat.lt_irrefl in Hlt; [done| |].
  - by eexists.
  - intros gs rest. vm_compute. intros [= <- <-]. lia.
Qed.








(** ** The chart test *)

Section chart_test.
Context `{!chart.Scave, !chart.Imaging}.

Lemma test_for_charts self keep_charts charts :
  chart.ChartTestTask.for_charts self keep_charts charts
  = match find_chart (chart.chart_name self) charts with
    | Some c => chart.ChartTestTask.body self keep_charts c
    | None =>
        mret {| chart.task := self; chart.result := "ERROR"; chart.expected_result := None;
                chart.reason := Some "Chart not found" |}
    end.
Proof.
  induction charts as [|c charts IH]; simpl; [done|].
  by destruct (String.eqb (chart.name c) (chart.chart_name self)).
Qed.

Lemma test_body_declared self keep_charts c declared fs :
  chart.properties c !! "image_export_filename" = Some (PyStr declared) → declared ≠ "" →
  let folder := folder_of (chart.simulation_project self) (chart.analysis_file_name self) in
  let candidate := chart.render c fs in
  let rendered := <[new_file_name folder declared := candidate]> fs in
  chart.ChartTestTask.body self keep_charts c fs
  = match fs !! old_file_name folder declared with
    | Some baseline =>
        match chart.read_image candidate with
        | Returned new_image =>
            match chart.read_image baseline with
            | Returned old_image =>
                match chart.rmse old_image new_image with
                | Returned metric =>
                    (Returned {| chart.task := self;
                                 chart.result :=
                                   if chart.metric_is_zero metric then "PASS" else "FAIL";
                                 chart.expected_result := None;
                                 chart.reason :=
                                   if chart.metric_is_zero metric then None
                                   else Some ("Metric: " +:+ chart.str_of_metric metric) |},
                     if keep_charts then rendered
                     else delete (new_file_name folder declared) fs)
                | Raised e => (Raised e, rendered)
                end
            | Raised e => (Raised e, rendered)
            end
        | Raised e => (Raised e, rendered)
        end
    | None =>
        (Returned {| chart.task := self; chart.result := "FAIL";
                     chart.expected_result := None;
                     chart.reason := Some "Chart not found" |}, rendered)
    end.
Proof.
  intros Hprop Hne folder candidate rendered.
  unfold chart.ChartTestTask.body, chart.getitem. rewrite Hprop.
  unfold mbind, IO_bind, lift, chart.add, chart.export_image, mret, IO_ret.
  fold (file_name declared). unfold chart.is_none_or_empty.
  destruct (String.eqb_spec declared "") as [|_]; [done|].
  change (os_path.join _ (re.sub "_new" "" (file_name declared)))
    with (old_file_name folder declared).
  change (os_path.join _ (file_name declared)) with (new_file_name folder declared).
  unfold os.isfile, chart.imread, os.remove. cbn beta iota. fold candidate.
  subst rendered.
  rewrite lookup_insert_ne by apply not_eq_sym, file_names_differ.
  destruct (fs !! old_file_name folder declared) as [baseline|] eqn:Hold.
  - rewrite bool_decide_true by done.
    rewrite lookup_insert_eq.
    destruct (chart.read_image candidate) as [new_image|e]; [|done].
    rewrite lookup_insert_ne by apply not_eq_sym, file_names_differ.
    rewrite Hold. cbn beta iota.
    destruct (chart.read_image baseline) as [old_image|e]; [|done].
    destruct (chart.rmse old_image new_image) as [metric|e]; [|done].
    destruct keep_charts; cbn.
    + by destruct (chart.metric_is_zero _).
    + rewrite lookup_insert_eq, delete_insert_eq.
      by destruct (chart.metric_is_zero _).
  - rewrite bool_decide_false; [done|]. by intros [? ?].
Qed.

Lemma test_body_empty self keep_charts c fs :
  chart.properties c !! "image_export_filename" = Some (PyStr "") →
  chart.ChartTestTask.body self keep_charts c fs
  = (Returned {| chart.task := self; chart.result := "SKIP";
                 chart.expected_result := Some "SKIP";
                 chart.reason := Some "Chart file name is not specified" |},
     <[new_file_name
         (folder_of (chart.simulation_project self) (chart.analysis_file_name self)) "" :=
         chart.render c fs]> fs).
Proof.
  intros Hprop. unfold chart.ChartTestTask.body, chart.getitem. by rewrite Hprop.
Qed.


(** C5, where the code holds it and where it does not: for the chart of the
    requested name, a declared export name that is the empty text gives SKIP
    with the reason Chart file name is not specified and the expected result
    SKIP; a declared name that is [None] raises a [TypeError], and a missing
    declaration raises a [KeyError], before the test for an unspecified name
    is reached. *)
Theorem chart_test_unspecified_name self keep_charts fs c :
  let path :=
    task.get_full_path (chart.simulation_project self) (chart.analysis_file_name self) in
  find_chart (chart.chart_name self) (chart.load_anf_file path fs) = Some c →
  (chart.properties c !! "image_export_filename" = Some (PyStr "") →
   ∃ r fs', chart.ChartTestTask.run_protected self keep_charts fs = (Returned r, fs')
     ∧ chart.result r = "SKIP" ∧ chart.expected_result r = Some "SKIP"
     ∧ chart.reason r = Some "Chart file name is not specified")
  ∧ (chart.properties c !! "image_export_filename" = Some PyNone →
     chart.ChartTestTask.run_protected self keep_charts fs
     = (Raised (TypeError "unsupported operand type(s) for +: 'NoneType' and 'str'"), fs))
  ∧ (chart.properties c !! "image_export_filename" = None →
     chart.ChartTestTask.run_protected self keep_charts fs
     = (Raised (KeyError "image_export_filename"), fs)).
Proof.
  intros path Hfind. unfold chart.ChartTestTask.run_protected. fold path.
  rewrite test_for_charts, Hfind. split_and!.
  - intros Hprop. rewrite test_body_empty by done. by eexists _, _.
  - intros Hprop. unfold chart.ChartTestTask.body, chart.getitem. by rewrite Hprop.
  - intros Hprop. unfold chart.ChartTestTask.body, chart.getitem. by rewrite Hprop.
Qed.


End chart_test.



Lemma chart_test_unspecified_name_witness :
  @chart.ChartTestTask.run_protected demo_scave demo_imaging (demo_test "jitter") false ∅
  = (Raised (TypeError "unsupported operand type(s) for +: 'NoneType' and 'str'"), ∅).
Proof.
  destruct (@chart_test_unspecified_name demo_scave demo_imaging (demo_test "jitter") false ∅
              chart_jitter eq_refl) as (_ & Hnone & _).
  exact (Hnone eq_refl).
Defined.



(** C10 at a declared name with the suffix inside: the candidate is written
    under the declared name followed by the suffix, but every occurrence of
    the suffix is removed for the baseline, so the baseline the task looks
    for is not the file of the declared name; with that file in place, and
    equal to the candidate, the test still reports that no chart is found. *)
Theorem baseline_name_with_suffix_inside :
  let folder := folder_of demo_project "showcases/coexistence/Coexistence.anf" in
  new_file_name folder "a_new_b" = demo_media +:+ "a_new_b_new.png"
  ∧ old_file_name folder "a_new_b" = demo_media +:+ "a_b.png"
  ∧ old_file_name folder "a_new_b" ≠ demo_media +:+ "a_new_b.png"
  ∧ summary (@chart.ChartTestTask.run_protected demo_scave demo_imaging (demo_test "renewal")
               false {[ demo_media +:+ "a_new_b.png" := "image of renewal" ]})
    = (Returned ("FAIL", None, Some "Chart not found"),
       [(demo_media +:+ "a_new_b_new.png", "image of renewal");
        (demo_media +:+ "a_new_b.png", "image of renewal")]).
Proof. split_and!; by vm_compute. Qed.

(** ** The chart update *)

Section chart_update.
Context `{!chart.Scave}.

Lemma update_for_charts self charts :
  chart.ChartUpdateTask.for_charts self charts
  = match find_chart (chart.update_chart_name self) charts with
    | Some c => chart.ChartUpdateTask.body self c
    | None =>
        mret {| chart.task := self; chart.result := "ERROR"; chart.expected_result := None;
                chart.reason := Some "Chart not found" |}
    end.
Proof.
  induction charts as [|c charts IH]; simpl; [done|].
  by destruct (String.eqb (chart.name c) (chart.update_chart_name self)).
Qed.

Lemma update_body_declared self c declared fs :
  chart.properties c !! "image_export_filename" = Some (PyStr declared) → declared ≠ "" →
  let folder :=
    folder_of (chart.update_simulation_project self) (chart.update_analysis_file_name self) in
  let candidate := chart.render c fs in
  let rendered := <[new_file_name folder declared := candidate]> fs in
  chart.ChartUpdateTask.body self c fs
  = match fs !! old_file_name folder declared with
    | Some baseline =>
        if String.eqb baseline candidate then
          (Returned {| chart.task := self; chart.result := "KEEP";
                       chart.expected_result := None; chart.reason := None |},
           delete (new_file_name folder declared) fs)
        else
          (Returned {| chart.task := self; chart.result := "UPDATE";
                       chart.expected_result := None; chart.reason := None |},
           <[old_file_name folder declared := candidate]>
             (delete (new_file_name folder declared) fs))
    | None =>
        if os.isdir (old_file_name folder declared) rendered then
          (Raised (IsADirectoryError (old_file_name folder declared)), rendered)
        else
          (Returned {| chart.task := self; chart.result := "INSERT";
                       chart.expected_result := None; chart.reason := None |},
           <[old_file_name folder declared := candidate]>
             (delete (new_file_name folder declared) fs))
    end.
Proof.
  intros Hprop Hne folder candidate rendered.
  unfold chart.ChartUpdateTask.body, chart.getitem. rewrite Hprop.
  unfold mbind, IO_bind, lift, chart.add, chart.export_image, mret, IO_ret.
  fold (file_name declared). unfold chart.is_none_or_empty.
  destruct (String.eqb_spec declared "") as [|_]; [done|].
  change (os_path.join _ (re.sub "_new" "" (file_name declared)))
    with (old_file_name folder declared).
  change (os_path.join _ (file_name declared)) with (new_file_name folder declared).
  unfold os.isfile, filecmp.cmp, os.remove, os.rename. cbn beta iota. fold candidate.
  fold rendered.
  assert (Hold' : rendered !! old_file_name folder declared
                  = fs !! old_file_name folder declared).
  { unfold rendered. by rewrite lookup_insert_ne by apply not_eq_sym, file_names_differ. }
  assert (Hnew : rendered !! new_file_name folder declared = Some candidate).
  { unfold rendered. by rewrite lookup_insert_eq. }
  assert (Hdel : delete (new_file_name folder declared) rendered
                 = delete (new_file_name folder declared) fs).
  { unfold rendered. by rewrite delete_insert_eq. }
  rewrite Hold'.
  destruct (fs !! old_file_name folder declared) as [baseline|] eqn:Hold.
  - rewrite bool_decide_true by done. rewrite Hold', Hnew. cbn beta iota.
    destruct (String.eqb baseline candidate); cbn beta iota.
    + by rewrite Hnew, Hdel.
    + rewrite Hnew. unfold os.isdir. by rewrite Hold', Hdel.
  - rewrite bool_decide_false by (by intros [? ?]). rewrite Hnew.
    destruct (os.isdir (old_file_name folder declared) rendered); [done|].
    by rewrite Hdel.
Qed.


End chart_update.



Lemma clean_simulation_results_guard_witness :
  task.clean_simulation_results scratch_config
    {[ "/srv/inet/examples/ethernet/results/General-0.sca" := "scalars" ]}
  = (Raised (Exception "Path is not in home"),
     {[ "/srv/inet/examples/ethernet/results/General-0.sca" := "scalars" ]})
  ∧ os.exists_ "/srv/inet/examples/ethernet/results"
      (task.clean_simulation_results scratch_config
         {[ "/srv/inet/examples/ethernet/results/General-0.sca" := "scalars" ]}).2
    = (Returned true, {[ "/srv/inet/examples/ethernet/results/General-0.sca" := "scalars" ]}).
Proof.
  destruct (clean_simulation_results_guard scratch_config
              {[ "/srv/inet/examples/ethernet/results/General-0.sca" := "scalars" ]})
    as [Hguard _].
  assert (Hout : ¬ occurs "/home/" "/srv/inet/examples/ethernet/results").
  { intros [g Hg]%search_home. vm_compute in Hg. discriminate Hg. }
  destruct (Hguard Hout) as [Hraise Hkept]. split; [exact Hraise|].
  apply (Hkept true {[ "/srv/inet/examples/ethernet/results/General-0.sca" := "scalars" ]}).
  vm_compute. reflexivity.
Defined.

(** ** The batch of chart tests *)

Lemma IO_bind_returned {A B : Type} (m : IO A) (f : A → IO B) fs a fs1 :
  m fs = (Returned a, fs1) → (m ≫= f) fs = f a fs1.
Proof. intros Hm. unfold mbind, IO_bind. by rewrite Hm. Qed.

Section chart_batch.
Context `{!chart.Framework}.

(** C2 on the code: when the batch of simulations rolls up to a code other
    than DONE, the method reads the name [simulation_task_result], which it
    never binds: with no global of that name it raises a [NameError] and
    returns no result, and with one it returns the code and reason of that
    object, not those of the batch.  When the batch rolls up to DONE, the
    chart tests are run by the method of the base class. *)
Theorem chart_batch_short_circuit self fs batch fs1 :
  chart.simulations_run_protected (chart.multiple_simulation_tasks self) fs
  = (Returned batch, fs1) →
  (chart.MultipleTaskResults.result batch ≠ "DONE" →
   chart.imported "simulation_task_result" = None →
   chart.MultipleChartTestTasks.run_protected self fs
   = (Raised (NameError "simulation_task_result"), fs1))
  ∧ (chart.MultipleTaskResults.result batch ≠ "DONE" →
     ∀ o, chart.imported "simulation_task_result" = Some o →
     chart.MultipleChartTestTasks.run_protected self fs
     = (Returned (chart.ShortCircuit
                    {| chart.task := self; chart.result := chart.attr_result o;
                       chart.expected_result := None;
                       chart.reason := chart.attr_reason o |}), fs1))
  ∧ (chart.MultipleTaskResults.result batch = "DONE" →
     chart.MultipleChartTestTasks.run_protected self fs
     = match chart.super_run_protected self fs1 with
       | (Returned r, fs2) => (Returned (chart.Ran r), fs2)
       | (Raised e, fs2) => (Raised e, fs2)
       end).
Proof.
  intros Hbatch. unfold chart.MultipleChartTestTasks.run_protected.
  rewrite (IO_bind_returned _ _ _ _ _ Hbatch).
  unfold chart.MultipleChartTestTasks.load_global. split_and!.
  - intros Hcode Hname. rewrite Hname.
    by destruct (String.eqb_spec (chart.MultipleTaskResults.result batch) "DONE").
  - intros Hcode o Hname. rewrite Hname.
    by destruct (String.eqb_spec (chart.MultipleTaskResults.result batch) "DONE").
  - intros ->. simpl. unfold mbind, IO_bind.
    by destruct (chart.super_run_protected self fs1) as [[r|e] fs2].
Qed.

End chart_batch.

Lemma chart_batch_short_circuit_witness :
  @chart.MultipleChartTestTasks.run_protected
    (demo_framework "ERROR" (Some "Non-zero exit code")) demo_batch ∅
  = (Raised (NameError "simulation_task_result"), ∅).
Proof.
  destruct (@chart_batch_short_circuit (demo_framework "ERROR" (Some "Non-zero exit code"))
              demo_batch ∅ _ ∅ eq_refl) as (Hraise & _ & _).
  apply Hraise.
  - discriminate.
  - reflexivity.
Defined.

(** ** The parameter string and the error message of a simulation *)

Lemma str_app_eq_nil (a b : string) : a +:+ b = "" → a = "" ∧ b = "".
Proof. destruct a; simpl; [done|discriminate]. Qed.

Lemma str_app_id_r (a b : string) : a +:+ b = a → b = "".
Proof.
  intros Heq. apply (str_app_inv_head a). by rewrite str_app_nil_r.
Qed.

(** X1: the parameter string of a task cannot be built when the limit of
    simulation time is a function: the concatenation raises a [TypeError].
    In every other case it is a text that starts with the working directory. *)
Theorem get_parameters_string_limit self :
  (∀ f, task.sim_time_limit self = Some (task.Callable f) →
        ∃ msg, task.SimulationTask.get_parameters_string self = Raised (TypeError msg))
  ∧ ((∀ f, task.sim_time_limit self ≠ Some (task.Callable f)) →
     ∃ rest, task.SimulationTask.get_parameters_string self
             = Returned (task.working_directory (task.simulation_config self) +:+ rest)).
Proof.
  unfold task.SimulationTask.get_parameters_string. split.
  - intros f ->. by eexists.
  - intros Hfixed. destruct (task.sim_time_limit self) as [[value|f]|]; simpl.
    + destruct (negb (String.eqb value "")); simpl; by eexists.
    + by destruct (Hfixed f).
    + by eexists.
Qed.

(** X2: the parameter string is the bare working directory exactly when the
    ini file is omnetpp.ini, the configuration is General, the run is 0 and
    the limit of simulation time is absent or empty. *)
Theorem get_parameters_string_defaults self :
  task.SimulationTask.get_parameters_string self
  = Returned (task.working_directory (task.simulation_config self))
  ↔ task.ini_file (task.simulation_config self) = "omnetpp.ini"
    ∧ task.config (task.simulation_config self) = "General"
    ∧ task._run self = 0
    ∧ task.SimulationTask.truthy (task.sim_time_limit self) = false.
Proof.
  unfold task.SimulationTask.get_parameters_string.
  destruct (String.eqb_spec (task.ini_file (task.simulation_config self)) "omnetpp.ini")
    as [Hini|Hini];
  destruct (String.eqb_spec (task.config (task.simulation_config self)) "General")
    as [Hconfig|Hconfig];
  destruct (Z.eqb_spec (task._run self) 0) as [Hrun|Hrun];
  destruct (task.sim_time_limit self) as [[value|f]|]; simpl;
    try destruct (String.eqb_spec value "") as [Hvalue|Hvalue]; simpl;
    (split;
     [ intros [= Heq]; try apply str_app_id_r in Heq;
       repeat match goal with
              | H : _ +:+ _ = "" |- _ => apply str_app_eq_nil in H as [? ?]
              end;
       try discriminate; by split_and!
     | intros (? & ? & ? & ?); try done; by rewrite ?str_app_nil_r ]).
Qed.

Lemma or_default_nonempty x default : default ≠ "" → task.SimulationTaskResult.or_default x default ≠ "".
Proof.
  intros Hd. unfold task.SimulationTaskResult.or_default.
  destruct x as [s|]; [|done]. by destruct (String.eqb_spec s "").
Qed.

(** X3: the error message of a result is empty exactly when the result is
    not ERROR; for an ERROR it is never empty, whatever was read from the
    error output. *)
Theorem get_error_message_empty self complete_error_message :
  task.SimulationTaskResult.get_error_message self complete_error_message = ""
  ↔ task.result self ≠ "ERROR".
Proof.
  unfold task.SimulationTaskResult.get_error_message.
  destruct (String.eqb_spec (task.result self) "ERROR") as [Herr|Herr].
  - split; [|done]. intros Hempty. exfalso.
    assert (Hm : task.SimulationTaskResult.or_default (task.error_message self)
                   "Error message not found" ≠ "") by by apply or_default_nonempty.
    destruct complete_error_message; [|done].
    by apply str_app_eq_nil in Hempty as [? _].
  - done.
Qed.







(** ** The cleanup of results directories *)

Lemma prefix_length (a b : string) :
  String.prefix a b = true → (String.length a ≤ String.length b)%nat.
Proof.
  revert b. induction a as [|x a IH]; intros b; simpl; [lia|].
  destruct b as [|y b]; [done|]. simpl. destruct (ascii_dec x y); [|done].
  intros Hp%IH. lia.
Qed.

Lemma under_irrefl path : os.under path path = false.
Proof.
  unfold os.under. destruct (String.prefix (path +:+ "/") path) eqn:Hp; [|done].
  apply prefix_length in Hp. rewrite str_length_app in Hp. simpl in Hp. lia.
Qed.

Lemma lookup_rmtree path (fs : FS) p :
  filter (λ kv : string * string, os.under path kv.1 = false) fs !! p
  = if os.under path p then None else fs !! p.
Proof.
  destruct (os.under path p) eqn:Hu.
  - apply map_lookup_filter_None. right. intros x _. simpl. by rewrite Hu.
  - destruct (fs !! p) as [x|] eqn:Hp.
    + by apply map_lookup_filter_Some.
    + apply map_lookup_filter_None. by left.
Qed.

Lemma tree_rmtree path (fs : FS) :
  os.tree path (filter (λ kv : string * string, os.under path kv.1 = false) fs) = ∅.
Proof.
  apply map_eq. intros p. rewrite lookup_empty. unfold os.tree.
  apply map_lookup_filter_None. right. intros x. rewrite lookup_rmtree. simpl.
  by destruct (os.under path p).
Qed.

Lemma rmtree_nothing path (fs : FS) :
  os.tree path fs = ∅ → filter (λ kv : string * string, os.under path kv.1 = false) fs = fs.
Proof.
  intros Hempty. apply map_eq. intros p. rewrite lookup_rmtree.
  destruct (os.under path p) eqn:Hu; [|done].
  destruct (fs !! p) as [x|] eqn:Hp; [|done].
  assert (Hin : os.tree path fs !! p = Some x) by by apply map_lookup_filter_Some.
  by rewrite Hempty in Hin.
Qed.

Lemma clean_in_home simulation_config fs :
  occurs "/home/" (results_path simulation_config) →
  task.clean_simulation_results simulation_config fs
  = match fs !! results_path simulation_config with
    | Some _ => (Raised (NotADirectoryError (results_path simulation_config)), fs)
    | None =>
        (Returned (),
         filter (λ kv : string * string, os.under (results_path simulation_config) kv.1 = false)
           fs)
    end.
Proof.
  intros [g Hg]%search_home. unfold task.clean_simulation_results.
  fold (results_path simulation_config). rewrite Hg.
  unfold mbind, IO_bind, os.exists_, shutil.rmtree.
  destruct (fs !! results_path simulation_config) as [x|] eqn:Hp.
  - rewrite bool_decide_true by done. simpl. by rewrite Hp.
  - rewrite bool_decide_false by (by intros [? ?]). simpl.
    destruct (decide (os.tree (results_path simulation_config) fs = ∅)) as [Hempty|Hfull].
    + rewrite bool_decide_true by done. simpl. by rewrite rmtree_nothing.
    + rewrite bool_decide_false by done. simpl. rewrite Hp.
      by rewrite bool_decide_false by done.
Qed.

(** X6: for a configuration whose results path has the home marker and is
    not a regular file, the cleanup returns and leaves nothing under the
    results directory, every other file as it was, and a results path that
    no longer exists; cleaning again changes nothing. *)
Theorem clean_removes_results simulation_config fs :
  let path := results_path simulation_config in
  occurs "/home/" path → fs !! path = None →
  ∃ fs', task.clean_simulation_results simulation_config fs = (Returned (), fs')
    ∧ (∀ p, os.under path p = true → fs' !! p = None)
    ∧ (∀ p, os.under path p = false → fs' !! p = fs !! p)
    ∧ os.exists_ path fs' = (Returned false, fs')
    ∧ task.clean_simulation_results simulation_config fs' = (Returned (), fs').
Proof.
  intros path Hhome Hnone. rewrite clean_in_home by done. fold path. rewrite Hnone.
  eexists. split; [done|].
  assert (Hpath : filter (λ kv : string * string, os.under path kv.1 = false) fs !! path = None).
  { by rewrite lookup_rmtree, under_irrefl. }
  split_and!.
  - intros p Hp. by rewrite lookup_rmtree, Hp.
  - intros p Hp. by rewrite lookup_rmtree, Hp.
  - unfold os.exists_. rewrite Hpath, tree_rmtree.
    rewrite bool_decide_false by (by intros [? ?]). by rewrite bool_decide_true.
  - rewrite clean_in_home by done. fold path. rewrite Hpath.
    by rewrite rmtree_nothing by apply tree_rmtree.
Qed.

Lemma clean_removes_results_witness :
  ∃ fs', task.clean_simulation_results demo_config
           {[ "/home/user/inet/examples/ethernet/results/General-0.sca" := "scalars";
              "/home/user/inet/examples/ethernet/omnetpp.ini" := "[General]" ]}
         = (Returned (), fs')
    ∧ fs' !! "/home/user/inet/examples/ethernet/results/General-0.sca" = None
    ∧ fs' !! "/home/user/inet/examples/ethernet/omnetpp.ini" = Some "[General]".
Proof.
  destruct (clean_removes_results demo_config
              {[ "/home/user/inet/examples/ethernet/results/General-0.sca" := "scalars";
                 "/home/user/inet/examples/ethernet/omnetpp.ini" := "[General]" ]})
    as (fs' & Hclean & Hgone & Hkept & _).
  - by exists "", "user/inet/examples/ethernet/results".
  - reflexivity.
  - exists fs'. split; [exact Hclean|]. split.
    + apply Hgone. reflexivity.
    + rewrite Hkept by reflexivity. reflexivity.
Defined.

(** X7: when the results path has the home marker but is a regular file,
    the cleanup raises a [NotADirectoryError] and removes nothing. *)
Theorem clean_regular_file simulation_config fs :
  let path := results_path simulation_config in
  occurs "/home/" path → is_Some (fs !! path) →
  task.clean_simulation_results simulation_config fs = (Raised (NotADirectoryError path), fs).
Proof.
  intros path Hhome [x Hx]. rewrite clean_in_home by done. fold path. by rewrite Hx.
Qed.

Lemma clean_regular_file_witness :
  task.clean_simulation_results demo_config
    {[ "/home/user/inet/examples/ethernet/results" := "not a directory" ]}
  = (Raised (NotADirectoryError "/home/user/inet/examples/ethernet/results"),
     {[ "/home/user/inet/examples/ethernet/results" := "not a directory" ]}).
Proof.
  apply (clean_regular_file demo_config
           {[ "/home/user/inet/examples/ethernet/results" := "not a directory" ]}).
  - by exists "", "user/inet/examples/ethernet/results".
  - by eexists.
Defined.

Lemma clean_one simulation_config fs o fs' :
  task.clean_simulation_results simulation_config fs = (o, fs') →
  ∀ p, fs' !! p = fs !! p
       ∨ (fs' !! p = None ∧ occurs "/home/" (results_path simulation_config)
          ∧ os.under (results_path simulation_config) p = true).
Proof.
  intros Hclean p.
  destruct (re.search ".*/home/.*" (results_path simulation_config)) as [g|] eqn:Hs.
  - assert (Hhome : occurs "/home/" (results_path simulation_config)).
    { apply search_home. by rewrite Hs. }
    rewrite clean_in_home in Hclean by done.
    destruct (fs !! results_path simulation_config).
    + injection Hclean as _ <-. by left.
    + injection Hclean as _ <-. rewrite lookup_rmtree.
      destruct (os.under (results_path simulation_config) p) eqn:Hu; [by right | by left].
  - unfold task.clean_simulation_results in Hclean.
    fold (results_path simulation_config) in Hclean. rewrite Hs in Hclean.
    injection Hclean as _ <-. by left.
Qed.

Lemma clean_each_cons simulation_config rest fs :
  task.clean_each (simulation_config :: rest) fs
  = match task.clean_simulation_results simulation_config fs with
    | (Returned _, fs1) => task.clean_each rest fs1
    | (Raised e, fs1) => (Raised e, fs1)
    end.
Proof. done. Qed.

(** X8: whatever the list of configurations and however the cleanup of all
    of them ends, a file is either as it was or gone, and a file that is
    gone lay under the results directory of a listed configuration whose
    path has the home marker. *)
Theorem clean_each_frame simulation_configs fs o fs' :
  task.clean_each simulation_configs fs = (o, fs') →
  ∀ p, fs' !! p = fs !! p
       ∨ (fs' !! p = None
          ∧ ∃ c, c ∈ simulation_configs ∧ occurs "/home/" (results_path c)
                 ∧ os.under (results_path c) p = true).
Proof.
  revert fs. induction simulation_configs as [|c rest IH]; intros fs.
  - intros [= _ <-] p. by left.
  - rewrite clean_each_cons.
    destruct (task.clean_simulation_results c fs) as [[[]|e] fs1] eqn:Hc.
    + intros Hrest p.
      destruct (IH _ Hrest p) as [Hsame|(Hgone & c' & Hin & Hhome & Hunder)].
      * rewrite Hsame. destruct (clean_one _ _ _ _ Hc p) as [?|(? & ? & ?)]; [by left|].
        right. split; [done|]. exists c. split; [by left | done].
      * right. split; [done|]. exists c'. split; [by right | done].
    + intros [= _ <-] p.
      destruct (clean_one _ _ _ _ Hc p) as [?|(? & ? & ?)]; [by left|].
      right. split; [done|]. exists c. split; [by left | done].
Qed.

Lemma clean_each_frame_witness :
  (task.clean_each [demo_config; scratch_config]
     {[ "/home/user/inet/examples/ethernet/results/General-0.sca" := "scalars";
        "/srv/inet/examples/ethernet/results/General-0.sca" := "kept" ]}).2
  !! "/srv/inet/examples/ethernet/results/General-0.sca" = Some "kept".
Proof.
  destruct (clean_each_frame [demo_config; scratch_config]
              {[ "/home/user/inet/examples/ethernet/results/General-0.sca" := "scalars";
                 "/srv/inet/examples/ethernet/results/General-0.sca" := "kept" ]}
              _ _ (surjective_pairing _)
              "/srv/inet/examples/ethernet/results/General-0.sca")
    as [Hsame|[Hgone _]].
  - rewrite Hsame. reflexivity.
  - vm_compute in Hgone. discriminate Hgone.
Defined.




(** X10: when every listed configuration has the home marker in its results
    path and none of these paths is a regular file, the cleanup of the list
    returns, and afterwards nothing is left under any of the results
    directories. *)
Theorem clean_each_all simulation_configs fs :
  (∀ c, c ∈ simulation_configs → occurs "/home/" (results_path c) ∧ fs !! results_path c = None) →
  ∃ fs', task.clean_each simulation_configs fs = (Returned (), fs')
    ∧ ∀ c p, c ∈ simulation_configs → os.under (results_path c) p = true → fs' !! p = None.
Proof.
  revert fs. induction simulation_configs as [|c rest IH]; intros fs Hall.
  - exists fs. split; [done|]. intros c p Hin. by apply elem_of_nil in Hin.
  - destruct (Hall c) as [Hhome Hnone]; [by left|].
    rewrite clean_each_cons, clean_in_home, Hnone by done.
    set (fs1 := filter _ fs).
    destruct (IH fs1) as (fs' & Hrest & Hgone).
    { intros c' Hin. destruct (Hall c') as [Hhome' Hnone']; [by right|].
      split; [done|]. unfold fs1. rewrite lookup_rmtree, Hnone'.
      by destruct (os.under _ _). }
    exists fs'. split; [done|]. intros c' p [->|Hin]%elem_of_cons Hunder.
    + destruct (clean_each_frame _ _ _ _ Hrest p) as [Hsame|[? _]]; [|done].
      rewrite Hsame. unfold fs1. by rewrite lookup_rmtree, Hunder.
    + by apply (Hgone c').
Qed.

Lemma clean_each_all_witness :
  ∃ fs', task.clean_each [demo_config; demo_config_wifi]
           {[ "/home/user/inet/examples/ethernet/results/General-0.sca" := "scalars";
              "/home/user/inet/examples/wireless/results/Wifi-0.sca" := "scalars" ]}
         = (Returned (), fs')
    ∧ fs' !! "/home/user/inet/examples/wireless/results/Wifi-0.sca" = None.
Proof.
  destruct (clean_each_all [demo_config; demo_config_wifi]
              {[ "/home/user/inet/examples/ethernet/results/General-0.sca" := "scalars";
                 "/home/user/inet/examples/wireless/results/Wifi-0.sca" := "scalars" ]})
    as (fs' & Hclean & Hgone).
  - intros c [->|[->|Hin%elem_of_nil]%elem_of_cons]%elem_of_cons.
    + split; [by exists "", "user/inet/examples/ethernet/results" | reflexivity].
    + split; [by exists "", "user/inet/examples/wireless/results" | reflexivity].
    + destruct Hin.
  - exists fs'. split; [exact Hclean|].
    apply (Hgone demo_config_wifi); [|reflexivity]. right. left.
Defined.



(** ** The tasks of the configurations *)

Lemma elem_of_range n x : x ∈ task.range n ↔ 0 ≤ x < n.
Proof.
  unfold task.range. rewrite list_elem_of_fmap. split.
  - intros (k & -> & Hk%elem_of_seq). lia.
  - intros Hx. exists (Z.to_nat x). split; [lia|]. apply elem_of_seq. lia.
Qed.

Section get_simulation_tasks_facts.
Context `{!task.Discovery}.
Context (run : option Z) (sim_time_limit cpu_time_limit : option task.TimeLimit).
Context (mode user_interface : string) (record_eventlog record_pcap : bool).

Abbreviation tasks_of_config :=
  (task.tasks_of_config run sim_time_limit cpu_time_limit mode user_interface
     record_eventlog record_pcap).
Abbreviation new_task :=
  (task.new_task sim_time_limit cpu_time_limit mode user_interface record_eventlog record_pcap).
Abbreviation get_simulation_tasks :=
  (task.get_simulation_tasks run sim_time_limit cpu_time_limit mode user_interface
     record_eventlog record_pcap).

Lemma for_configs_concat simulation_configs simulation_tasks :
  task.for_configs run sim_time_limit cpu_time_limit mode user_interface record_eventlog
    record_pcap simulation_configs simulation_tasks
  = (simulation_tasks ++ concat (map tasks_of_config simulation_configs))%list.
Proof.
  revert simulation_tasks. induction simulation_configs as [|c rest IH]; intros acc; simpl.
  - by rewrite app_nil_r.
  - by rewrite IH, app_assoc.
Qed.

Lemma tasks_concat simulation_project simulation_configs working_directory_filter :
  task.tasks (get_simulation_tasks simulation_project simulation_configs
                working_directory_filter)
  = concat (map tasks_of_config
              (default
                 (task.get_simulation_configs
                    (Some (default task.default_project simulation_project))
                    working_directory_filter)
                 simulation_configs)).
Proof.
  unfold task.get_simulation_tasks. simpl. rewrite for_configs_concat.
  by destruct simulation_configs.
Qed.

Lemma elem_of_tasks t simulation_project simulation_configs working_directory_filter :
  t ∈ task.tasks (get_simulation_tasks simulation_project simulation_configs
                    working_directory_filter)
  ↔ ∃ c, c ∈ default
               (task.get_simulation_configs
                  (Some (default task.default_project simulation_project))
                  working_directory_filter)
               simulation_configs
         ∧ t ∈ tasks_of_config c.
Proof.
  rewrite tasks_concat, list_elem_of_In, in_concat. split.
  - intros (l & (c & <- & Hc)%in_map_iff & Ht).
    exists c. by rewrite !list_elem_of_In.
  - intros (c & Hc%list_elem_of_In & Ht%list_elem_of_In). exists (tasks_of_config c).
    split; [|done]. apply in_map_iff. by exists c.
Qed.

End get_simulation_tasks_facts.

(** X12: without a given run, the tasks are those of every run of every
    configuration: each task belongs to a listed configuration and its run
    is at least 0 and below the number of runs of that configuration; every
    such run of every listed configuration has its task; and the number of
    tasks is the sum of the numbers of runs, a configuration with no run or a
    negative number of runs giving none. *)
Theorem get_simulation_tasks_every_run `{!task.Discovery} sim_time_limit cpu_time_limit
    mode user_interface record_eventlog record_pcap simulation_project simulation_configs
    working_directory_filter :
  let configs :=
    default
      (task.get_simulation_configs (Some (default task.default_project simulation_project))
         working_directory_filter)
      simulation_configs in
  let batch :=
    task.get_simulation_tasks None sim_time_limit cpu_time_limit mode user_interface
      record_eventlog record_pcap simulation_project simulation_configs
      working_directory_filter in
  (∀ t, t ∈ task.tasks batch →
        task.simulation_config t ∈ configs
        ∧ 0 ≤ task._run t < task.num_runs (task.simulation_config t))
  ∧ (∀ c r, c ∈ configs → 0 ≤ r < task.num_runs c →
        task.new_task sim_time_limit cpu_time_limit mode user_interface record_eventlog
          record_pcap c r ∈ task.tasks batch)
  ∧ length (task.tasks batch) = sum_list (map (λ c, Z.to_nat (task.num_runs c)) configs).
Proof.
  intros configs batch. split_and!.
  - intros t (c & Hc & Ht)%elem_of_tasks. simpl in Ht.
    apply list_elem_of_fmap in Ht as (r & -> & Hr%elem_of_range). by split.
  - intros c r Hc Hr. apply elem_of_tasks. exists c. split; [done|]. simpl.
    apply list_elem_of_fmap. exists r. split; [done|]. by apply elem_of_range.
  - unfold batch. rewrite tasks_concat. fold configs.
    induction configs as [|c rest IH]; simpl; [done|].
    rewrite length_app, IH. f_equal. unfold task.range.
    by rewrite !length_map, length_seq.
Qed.

(** X13: with a given run there is one task for each configuration, in the
    order of the configurations, and each has that run, whether or not the
    configuration has a run of that number. *)
Theorem get_simulation_tasks_one_run `{!task.Discovery} run sim_time_limit cpu_time_limit
    mode user_interface record_eventlog record_pcap simulation_project simulation_configs
    working_directory_filter :
  let configs :=
    default
      (task.get_simulation_configs (Some (default task.default_project simulation_project))
         working_directory_filter)
      simulation_configs in
  let batch :=
    task.get_simulation_tasks (Some run) sim_time_limit cpu_time_limit mode user_interface
      record_eventlog record_pcap simulation_project simulation_configs
      working_directory_filter in
  map task.simulation_config (task.tasks batch) = configs
  ∧ ∀ t, t ∈ task.tasks batch → task._run t = run.
Proof.
  intros configs batch. unfold batch. split.
  - rewrite tasks_concat. fold configs.
    induction configs as [|c rest IH]; simpl; [done|]. by rewrite IH.
  - intros t (c & Hc & Ht)%elem_of_tasks. simpl in Ht.
    by apply list_elem_of_singleton in Ht as ->.
Qed.

(** X14: the limit of simulation time of a task that is built is never a
    function: a function is applied to the configuration and the run when the
    task is built, so the parameter string of every task that is built can be
    formed.  The limit of processor time is handed on as it is given. *)
Theorem get_simulation_tasks_limits `{!task.Discovery} run sim_time_limit cpu_time_limit
    mode user_interface record_eventlog record_pcap simulation_project simulation_configs
    working_directory_filter t :
  t ∈ task.tasks
        (task.get_simulation_tasks run sim_time_limit cpu_time_limit mode user_interface
           record_eventlog record_pcap simulation_project simulation_configs
           working_directory_filter) →
  (∀ f, task.sim_time_limit t ≠ Some (task.Callable f))
  ∧ (∀ f, sim_time_limit = Some (task.Callable f) →
          task.sim_time_limit t
          = Some (task.Fixed (f (task.simulation_config t) (task._run t))))
  ∧ task.cpu_time_limit t = cpu_time_limit
  ∧ ∃ text, task.SimulationTask.get_parameters_string t = Returned text.
Proof.
  intros (c & Hc & Ht)%elem_of_tasks.
  assert (∃ r, t = task.new_task sim_time_limit cpu_time_limit mode user_interface
                     record_eventlog record_pcap c r) as [r ->].
  { unfold task.tasks_of_config in Ht. destruct run as [r|].
    - apply list_elem_of_singleton in Ht. by exists r.
    - apply list_elem_of_fmap in Ht as (r & -> & _). by exists r. }
  assert (Hfixed : ∀ f, task.limit_of_run sim_time_limit c r ≠ Some (task.Callable f)).
  { intros f. by destruct sim_time_limit as [[]|]. }
  split_and!; try done.
  - by intros f ->.
  - destruct (get_parameters_string_limit
                (task.new_task sim_time_limit cpu_time_limit mode user_interface
                   record_eventlog record_pcap c r)) as [_ Hreturns].
    destruct (Hreturns Hfixed) as [rest Hrest]. by eexists.
Qed.

Lemma get_simulation_tasks_limits_witness :
  let t := task.new_task (Some (task.Callable (λ c r, str_of_int (r + 1) +:+ "s"))) None
             "release" "Cmdenv" false false demo_config_wifi 2 in
  task.sim_time_limit t = Some (task.Fixed "3s")
  ∧ ∃ text, task.SimulationTask.get_parameters_string t = Returned text.
Proof.
  intros t.
  destruct (@get_simulation_tasks_limits demo_discovery None
              (Some (task.Callable (λ c r, str_of_int (r + 1) +:+ "s"))) None
              "release" "Cmdenv" false false None None None t)
    as (_ & Hvalue & _ & Htext).
  - vm_compute. do 4 right. left.
  - split; [|exact Htext]. rewrite (Hvalue _ eq_refl). reflexivity.
Defined.

(** ** The probe for interactive simulations *)







(** ** What the chart tasks leave on the file system *)

Section chart_test_frame.
Context `{!chart.Scave, !chart.Imaging}.

Lemma test_body_frame self keep_charts c o fs fs' :
  chart.ChartTestTask.body self keep_charts c fs = (o, fs') →
  match chart.properties c !! "image_export_filename" with
  | Some (PyStr declared) =>
      ∀ p, p ≠ new_file_name
                 (folder_of (chart.simulation_project self) (chart.analysis_file_name self))
                 declared →
           fs' !! p = fs !! p
  | _ => fs' = fs
  end.
Proof.
  destruct (chart.properties c !! "image_export_filename") as [[|declared]|] eqn:Hprop.
  - unfold chart.ChartTestTask.body, chart.getitem. rewrite Hprop. by intros [= _ <-].
  - destruct (String.eqb_spec declared "") as [->|Hne].
    + rewrite test_body_empty by done. intros [= _ <-] p Hp. by rewrite lookup_insert_ne.
    + rewrite (test_body_declared _ _ _ declared) by done. cbn zeta.
      destruct (fs !! old_file_name _ declared) as [baseline|].
      * destruct (chart.read_image (chart.render c fs)) as [new_image|e];
          [|intros [= _ <-] p Hp; by rewrite lookup_insert_ne].
        destruct (chart.read_image baseline) as [old_image|e];
          [|intros [= _ <-] p Hp; by rewrite lookup_insert_ne].
        destruct (chart.rmse old_image new_image) as [metric|e];
          [|intros [= _ <-] p Hp; by rewrite lookup_insert_ne].
        destruct keep_charts; intros [= _ <-] p Hp;
          [by rewrite lookup_insert_ne | by rewrite lookup_delete_ne].
      * intros [= _ <-] p Hp. by rewrite lookup_insert_ne.
  - unfold chart.ChartTestTask.body, chart.getitem. rewrite Hprop. by intros [= _ <-].
Qed.

(** X17: a chart test changes no file but its candidate.  However it ends,
    every path other than the candidate path of the declared name of the
    chart it found holds what it held before; in particular the baseline is
    never touched.  When no chart is found, or the chart declares no name or
    [None], nothing changes at all. *)
Theorem chart_test_changes_candidate_only self keep_charts fs o fs' :
  let path :=
    task.get_full_path (chart.simulation_project self) (chart.analysis_file_name self) in
  let folder := os_path.dirname path in
  chart.ChartTestTask.run_protected self keep_charts fs = (o, fs') →
  match find_chart (chart.chart_name self) (chart.load_anf_file path fs) with
  | Some c =>
      match chart.properties c !! "image_export_filename" with
      | Some (PyStr declared) =>
          (∀ p, p ≠ new_file_name folder declared → fs' !! p = fs !! p)
          ∧ fs' !! old_file_name folder declared = fs !! old_file_name folder declared
      | _ => fs' = fs
      end
  | None => fs' = fs
  end.
Proof.
  intros path folder. unfold chart.ChartTestTask.run_protected. fold path.
  rewrite test_for_charts.
  destruct (find_chart _ _) as [c|]; [|by intros [= _ <-]].
  intros Hbody%test_body_frame. unfold folder_of in Hbody. fold path folder in Hbody.
  destruct (chart.properties c !! "image_export_filename") as [[|declared]|]; try done.
  split; [done|]. apply Hbody, file_names_differ.
Qed.

(** X18: a chart that is skipped has been rendered all the same.  For the
    chart of the requested name with an empty declared name the result is
    SKIP, and afterwards the file [doc/media/_new.png] under the folder of the
    analysis file holds the rendered image; nothing else has changed. *)
Theorem chart_test_skip_renders self keep_charts fs c :
  let path :=
    task.get_full_path (chart.simulation_project self) (chart.analysis_file_name self) in
  let stray := os_path.join (os_path.dirname path) "doc/media/_new.png" in
  find_chart (chart.chart_name self) (chart.load_anf_file path fs) = Some c →
  chart.properties c !! "image_export_filename" = Some (PyStr "") →
  ∃ r fs', chart.ChartTestTask.run_protected self keep_charts fs = (Returned r, fs')
    ∧ chart.result r = "SKIP"
    ∧ fs' !! stray = Some (chart.render c fs)
    ∧ ∀ p, p ≠ stray → fs' !! p = fs !! p.
Proof.
  intros path stray Hfind Hprop. unfold chart.ChartTestTask.run_protected. fold path.
  rewrite test_for_charts, Hfind, test_body_empty by done.
  eexists _, _. split; [done|]. split; [done|].
  change (new_file_name _ "") with stray. split.
  - by rewrite lookup_insert_eq.
  - intros p Hp. by rewrite lookup_insert_ne.
Qed.

End chart_test_frame.

Lemma chart_test_changes_candidate_only_witness :
  (@chart.ChartTestTask.run_protected demo_scave demo_imaging (demo_test "throughput") true
     {[ demo_media +:+ "throughput.png" := "an older image" ]}).2
  !! (demo_media +:+ "throughput.png") = Some "an older image".
Proof.
  pose proof (@chart_test_changes_candidate_only demo_scave demo_imaging
                (demo_test "throughput") true
                {[ demo_media +:+ "throughput.png" := "an older image" ]}
                _ _ (surjective_pairing _)) as Hframe.
  change (find_chart _ _) with (Some chart_throughput) in Hframe.
  change (chart.properties chart_throughput !! "image_export_filename")
    with (Some (PyStr "throughput")) in Hframe.
  destruct Hframe as [_ Hbaseline].
  change (old_file_name _ "throughput") with (demo_media +:+ "throughput.png") in Hbaseline.
  rewrite Hbaseline. reflexivity.
Defined.

Lemma chart_test_skip_renders_witness :
  ∃ r fs', @chart.ChartTestTask.run_protected demo_scave demo_imaging (demo_test "delay")
             false ∅ = (Returned r, fs')
    ∧ chart.result r = "SKIP"
    ∧ fs' !! (demo_media +:+ "_new.png") = Some "image of delay".
Proof.
  destruct (@chart_test_skip_renders demo_scave demo_imaging (demo_test "delay") false ∅
              chart_delay eq_refl eq_refl) as (r & fs' & Hrun & Hskip & Hstray & _).
  exists r, fs'. split; [exact Hrun|]. split; [exact Hskip|]. exact Hstray.
Defined.

Section chart_update_more.
Context `{!chart.Scave}.





(** X21: the error paths of an update.  When no chart of the requested name
    is in the analysis the result is ERROR with the reason Chart not found
    and nothing changes; when the chart declares [None] as its name the
    update raises a [TypeError], and when it declares none a [KeyError],
    with nothing changed; when the declared name is empty the result is
    SKIP. *)
Theorem chart_update_errors self fs :
  let path :=
    task.get_full_path (chart.update_simulation_project self)
      (chart.update_analysis_file_name self) in
  (find_chart (chart.update_chart_name self) (chart.load_anf_file path fs) = None →
   chart.ChartUpdateTask.run_protected self fs
   = (Returned {| chart.task := self; chart.result := "ERROR";
                  chart.expected_result := None;
                  chart.reason := Some "Chart not found" |}, fs))
  ∧ ∀ c, find_chart (chart.update_chart_name self) (chart.load_anf_file path fs) = Some c →
      (chart.properties c !! "image_export_filename" = Some PyNone →
       chart.ChartUpdateTask.run_protected self fs
       = (Raised (TypeError "unsupported operand type(s) for +: 'NoneType' and 'str'"), fs))
      ∧ (chart.properties c !! "image_export_filename" = None →
         chart.ChartUpdateTask.run_protected self fs
         = (Raised (KeyError "image_export_filename"), fs))
      ∧ (chart.properties c !! "image_export_filename" = Some (PyStr "") →
         ∃ r fs', chart.ChartUpdateTask.run_protected self fs = (Returned r, fs')
           ∧ chart.result r = "SKIP" ∧ chart.expected_result r = Some "SKIP"
           ∧ chart.reason r = Some "Chart file name is not specified").
Proof.
  intros path. unfold chart.ChartUpdateTask.run_protected. fold path.
  rewrite update_for_charts. split.
  - by intros ->.
  - intros c ->. unfold chart.ChartUpdateTask.body, chart.getitem. split_and!.
    + by intros ->.
    + by intros ->.
    + intros ->. by eexists _, _.
Qed.

End chart_update_more.





(** ** The builders of the chart batches *)

Lemma fold_left_snoc {A B : Type} (f : A → B) (l : list A) (acc : list B) :
  fold_left (λ acc x, (acc ++ [f x])%list) l acc = (acc ++ map f l)%list.
Proof.
  revert acc. induction l as [|x l IH]; intros acc; simpl.
  - by rewrite app_nil_r.
  - by rewrite IH, <- app_assoc.
Qed.

Lemma fold_left_concat {A B : Type} (f : A → list B) (step : list B → A → list B)
    (l : list A) (acc : list B) :
  (∀ acc x, step acc x = (acc ++ f x)%list) →
  fold_left step l acc = (acc ++ concat (map f l))%list.
Proof.
  intros Hstep. revert acc. induction l as [|x l IH]; intros acc; simpl.
  - by rewrite app_nil_r.
  - by rewrite IH, Hstep, <- app_assoc.
Qed.

Lemma elem_of_concat_map {A B : Type} (f : A → list B) (l : list A) (y : B) :
  y ∈ concat (map f l) ↔ ∃ x, x ∈ l ∧ y ∈ f x.
Proof.
  rewrite list_elem_of_In, in_concat. split.
  - intros (ys & (x & <- & Hx)%in_map_iff & Hy). exists x. by rewrite !list_elem_of_In.
  - intros (x & Hx%list_elem_of_In & Hy%list_elem_of_In). exists (f x).
    split; [|done]. apply in_map_iff. by exists x.
Qed.

Lemma find_chart_elem c charts :
  c ∈ charts → ∃ c', find_chart (chart.name c) charts = Some c'.
Proof.
  induction 1 as [c charts|c c0 charts Hin IH]; unfold find_chart; simpl.
  - rewrite String.eqb_refl. by eexists.
  - destruct (String.eqb (chart.name c0) (chart.name c)); [by eexists | apply IH].
Qed.

Section update_builder.
Context `{!chart.Scave, !chart.Workspace}.

Lemma get_update_chart_tasks_concat simulation_project filter working_directory_filter fs :
  chart.get_update_chart_tasks simulation_project filter working_directory_filter fs
  = concat
      (map (λ file,
              map (update_task_of simulation_project file)
                (chart.load_anf_file (task.get_full_path simulation_project file) fs))
         (chart.get_analysis_files simulation_project
            (chart.or_else filter working_directory_filter))).
Proof.
  unfold chart.get_update_chart_tasks.
  rewrite (fold_left_concat
             (λ file, map (update_task_of simulation_project file)
                        (chart.load_anf_file (task.get_full_path simulation_project file) fs)));
    [done|].
  intros acc file. unfold chart.update_for_analysis_file.
  by rewrite (fold_left_snoc (update_task_of simulation_project file)).
Qed.

Lemma update_body_result self c fs r fs' :
  chart.ChartUpdateTask.body self c fs = (Returned r, fs') →
  chart.result r = "SKIP" ∨ chart.result r = "KEEP" ∨ chart.result r = "UPDATE"
  ∨ chart.result r = "INSERT".
Proof.
  destruct (chart.properties c !! "image_export_filename") as [[|declared]|] eqn:Hprop.
  - unfold chart.ChartUpdateTask.body, chart.getitem. by rewrite Hprop.
  - destruct (String.eqb_spec declared "") as [->|Hne].
    + unfold chart.ChartUpdateTask.body, chart.getitem. rewrite Hprop.
      intros [= <- _]. by left.
    + rewrite (update_body_declared _ _ declared) by done. cbn zeta.
      destruct (fs !! old_file_name _ declared) as [baseline|].
      * destruct (String.eqb baseline _); intros [= <- _]; simpl; by auto.
      * destruct (os.isdir _ _); [done|]. intros [= <- _]. simpl. by auto.
  - unfold chart.ChartUpdateTask.body, chart.getitem. by rewrite Hprop.
Qed.

(** X23: the update tasks that are built are one for each chart of each
    analysis file of the project, in the order of the files and of their
    charts, and each of them finds its chart: run on
    the file system the analysis files were read from, a task that returns
    gives SKIP, KEEP, UPDATE or INSERT, never the ERROR of a chart that is not
    found. *)
Theorem get_update_chart_tasks_find simulation_project filter working_directory_filter fs :
  let files :=
    chart.get_analysis_files simulation_project
      (chart.or_else filter working_directory_filter) in
  let update_tasks :=
    chart.get_update_chart_tasks simulation_project filter working_directory_filter fs in
  update_tasks
  = concat
      (map (λ file,
              map (update_task_of simulation_project file)
                (chart.load_anf_file (task.get_full_path simulation_project file) fs))
         files)
  ∧ ∀ update_task, update_task ∈ update_tasks →
      (∃ file c, file ∈ files
                 ∧ c ∈ chart.load_anf_file (task.get_full_path simulation_project file) fs
                 ∧ update_task = update_task_of simulation_project file c)
      ∧ ∀ r fs', chart.ChartUpdateTask.run_protected update_task fs = (Returned r, fs') →
          chart.result r = "SKIP" ∨ chart.result r = "KEEP" ∨ chart.result r = "UPDATE"
          ∨ chart.result r = "INSERT".
Proof.
  intros files update_tasks. unfold update_tasks.
  rewrite get_update_chart_tasks_concat. fold files. split; [done|].
  intros update_task (file & Hfile & Htask)%elem_of_concat_map.
  apply list_elem_of_fmap in Htask as (c & -> & Hc).
  split; [by exists file, c|].
  intros r fs'. unfold chart.ChartUpdateTask.run_protected. simpl.
  rewrite update_for_charts. simpl.
  destruct (find_chart_elem c _ Hc) as [c' ->]. apply update_body_result.
Qed.

End update_builder.

Lemma get_update_chart_tasks_find_witness :
  let update_task :=
    update_task_of demo_project "showcases/coexistence/Coexistence.anf" chart_renewal in
  update_task ∈ @chart.get_update_chart_tasks demo_scave demo_workspace demo_project None None ∅
  ∧ (∃ r fs', @chart.ChartUpdateTask.run_protected demo_scave update_task ∅
              = (Returned r, fs'))
  ∧ ∀ r fs', @chart.ChartUpdateTask.run_protected demo_scave update_task ∅ = (Returned r, fs') →
      chart.result r = "SKIP" ∨ chart.result r = "KEEP" ∨ chart.result r = "UPDATE"
      ∨ chart.result r = "INSERT".
Proof.
  intros update_task.
  destruct (@get_update_chart_tasks_find demo_scave demo_workspace demo_project None None ∅)
    as [_ Hfind].
  assert (Hin : update_task
                ∈ @chart.get_update_chart_tasks demo_scave demo_workspace demo_project
                    None None ∅).
  { apply list_elem_of_In. vm_compute. tauto. }
  split; [exact Hin|]. split.
  - eexists _, _. vm_compute. reflexivity.
  - apply (Hfind _ Hin).
Defined.

Section test_builder.
Context `{!chart.Scave, !chart.Workspace, !task.Discovery}.
Context (with_mode with_user_interface : string).
Context (with_record_eventlog with_record_pcap : bool).

Local Abbreviation tasks_of_folder simulation_project analysis_file_name :=
  (task.tasks
     (task.get_simulation_tasks None
        (Some (task.Callable chart.get_statistical_result_sim_time_limit)) None
        with_mode with_user_interface with_record_eventlog with_record_pcap
        (Some simulation_project) None
        (Some (chart.relpath
                 (os_path.dirname (task.get_full_path simulation_project analysis_file_name))
                 (task.get_full_path simulation_project "."))))).

Local Abbreviation for_chart :=
  (chart.for_chart with_mode with_user_interface with_record_eventlog with_record_pcap).
Local Abbreviation for_analysis_file :=
  (chart.for_analysis_file with_mode with_user_interface with_record_eventlog
     with_record_pcap).
Local Abbreviation get_chart_test_tasks :=
  (chart.get_chart_test_tasks with_mode with_user_interface with_record_eventlog
     with_record_pcap).

Lemma add_simulation_tasks_cons t new acc :
  chart.add_simulation_tasks (t :: new) acc
  = chart.add_simulation_tasks new
      (if existsb (λ element, chart.same_run element t) acc then acc
       else (acc ++ [t])%list).
Proof. done. Qed.

Lemma add_simulation_tasks_sub new acc e :
  e ∈ acc → e ∈ chart.add_simulation_tasks new acc.
Proof.
  revert acc. induction new as [|t new IH]; intros acc He; [done|].
  rewrite add_simulation_tasks_cons. apply IH.
  destruct (existsb _ acc); [done|]. apply elem_of_app. by left.
Qed.

Lemma add_simulation_tasks_represented new acc t :
  represented t acc → represented t (chart.add_simulation_tasks new acc).
Proof.
  intros (e & He & Hsame). exists e. split; [|done].
  by apply add_simulation_tasks_sub.
Qed.

Lemma add_simulation_tasks_new new acc t :
  t ∈ new → represented t (chart.add_simulation_tasks new acc).
Proof.
  revert acc. induction new as [|x new IH]; intros acc Ht; [by inversion Ht|].
  rewrite add_simulation_tasks_cons.
  apply elem_of_cons in Ht as [->|Ht]; [|by apply IH].
  apply add_simulation_tasks_represented.
  destruct (existsb _ acc) eqn:Hex.
  - apply existsb_exists in Hex as (e & He%list_elem_of_In & Hsame).
    exists e. by auto.
  - exists x. split; [|by left]. apply elem_of_app. right. by apply list_elem_of_singleton.
Qed.

Lemma add_simulation_tasks_distinct new acc :
  distinct_runs acc → distinct_runs (chart.add_simulation_tasks new acc).
Proof.
  revert acc. induction new as [|t new IH]; intros acc Hacc; [done|].
  rewrite add_simulation_tasks_cons. apply IH.
  destruct (existsb _ acc) eqn:Hex; [done|].
  intros i j a b Hij Ha Hb.
  apply lookup_app_Some in Hb as [Hb|[Hlen Hb]].
  - apply lookup_app_Some in Ha as [Ha|[Hlen _]].
    + by apply (Hacc i j).
    + apply lookup_lt_Some in Hb. lia.
  - apply list_lookup_singleton_Some in Hb as [Hj <-].
    apply lookup_app_Some in Ha as [Ha|[Hlen' _]]; [|lia].
    destruct (chart.same_run a t) eqn:Hsame; [|done].
    assert (existsb (λ element, chart.same_run element t) acc = true) as Htrue.
    { apply existsb_exists. exists a. split; [|done].
      apply list_elem_of_In. by eapply list_elem_of_lookup_2. }
    congruence.
Qed.

Lemma for_chart_fst simulation_project run_simulations file acc c :
  (for_chart simulation_project run_simulations file acc c).1
  = (acc.1 ++ [test_task_of simulation_project file c])%list.
Proof. by destruct acc. Qed.

Lemma for_chart_snd simulation_project run_simulations file acc c :
  (for_chart simulation_project run_simulations file acc c).2
  = if run_simulations
    then chart.add_simulation_tasks (tasks_of_folder simulation_project file) acc.2
    else acc.2.
Proof. by destruct acc. Qed.

Lemma fold_for_chart_fst simulation_project run_simulations file charts acc :
  (fold_left (for_chart simulation_project run_simulations file) charts acc).1
  = (acc.1 ++ map (test_task_of simulation_project file) charts)%list.
Proof.
  revert acc. induction charts as [|c charts IH]; intros acc; simpl.
  - by rewrite app_nil_r.
  - by rewrite IH, for_chart_fst, <- app_assoc.
Qed.

Lemma fold_for_analysis_file_fst simulation_project run_simulations fs files acc :
  (fold_left (for_analysis_file simulation_project run_simulations fs) files acc).1
  = (acc.1
     ++ concat
          (map (λ file,
                  map (test_task_of simulation_project file)
                    (chart.load_anf_file (task.get_full_path simulation_project file) fs))
             files))%list.
Proof.
  revert acc. induction files as [|file files IH]; intros acc; simpl.
  - by rewrite app_nil_r.
  - rewrite IH. unfold chart.for_analysis_file at 1.
    by rewrite fold_for_chart_fst, <- app_assoc.
Qed.

(** What every step of the two loops keeps of the simulation tasks. *)
Lemma fold_for_chart_snd (P : list task.SimulationTask → Prop)
    simulation_project run_simulations file charts acc :
  (∀ new l, P l → P (chart.add_simulation_tasks new l)) →
  P acc.2 →
  P (fold_left (for_chart simulation_project run_simulations file) charts acc).2.
Proof.
  intros Hadd. revert acc. induction charts as [|c charts IH]; intros acc Hacc; [done|].
  simpl. apply IH. rewrite for_chart_snd. destruct run_simulations; by auto.
Qed.

Lemma fold_for_analysis_file_snd (P : list task.SimulationTask → Prop)
    simulation_project run_simulations fs files acc :
  (∀ new l, P l → P (chart.add_simulation_tasks new l)) →
  P acc.2 →
  P (fold_left (for_analysis_file simulation_project run_simulations fs) files acc).2.
Proof.
  intros Hadd. revert acc. induction files as [|file files IH]; intros acc Hacc; [done|].
  simpl. apply IH. unfold chart.for_analysis_file at 1. by apply fold_for_chart_snd.
Qed.

Lemma fold_for_chart_off simulation_project file charts acc :
  (fold_left (for_chart simulation_project false file) charts acc).2 = acc.2.
Proof.
  revert acc. induction charts as [|c charts IH]; intros acc; [done|].
  simpl. by rewrite IH, for_chart_snd.
Qed.

Lemma fold_for_analysis_file_off simulation_project fs files acc :
  (fold_left (for_analysis_file simulation_project false fs) files acc).2 = acc.2.
Proof.
  revert acc. induction files as [|file files IH]; intros acc; [done|].
  simpl. rewrite IH. unfold chart.for_analysis_file. apply fold_for_chart_off.
Qed.

Lemma get_chart_test_tasks_tasks simulation_project run_simulations filter
    working_directory_filter fs :
  chart.tasks
    (get_chart_test_tasks simulation_project run_simulations filter
       working_directory_filter fs)
  = (fold_left (for_analysis_file simulation_project run_simulations fs)
       (chart.get_analysis_files simulation_project
          (chart.or_else filter working_directory_filter)) ([], [])).1.
Proof. unfold chart.get_chart_test_tasks. by destruct (fold_left _ _ _). Qed.

Lemma get_chart_test_tasks_simulations simulation_project run_simulations filter
    working_directory_filter fs :
  task.tasks
    (chart.multiple_simulation_tasks
       (get_chart_test_tasks simulation_project run_simulations filter
          working_directory_filter fs))
  = (fold_left (for_analysis_file simulation_project run_simulations fs)
       (chart.get_analysis_files simulation_project
          (chart.or_else filter working_directory_filter)) ([], [])).2.
Proof. unfold chart.get_chart_test_tasks. by destruct (fold_left _ _ _). Qed.

Lemma test_body_result `{!chart.Imaging} self keep_charts c fs r fs' :
  chart.ChartTestTask.body self keep_charts c fs = (Returned r, fs') →
  chart.result r = "SKIP" ∨ chart.result r = "PASS" ∨ chart.result r = "FAIL".
Proof.
  destruct (chart.properties c !! "image_export_filename") as [[|declared]|] eqn:Hprop.
  - unfold chart.ChartTestTask.body, chart.getitem. by rewrite Hprop.
  - destruct (String.eqb_spec declared "") as [->|Hne].
    + rewrite test_body_empty by done. intros [= <- _]. by left.
    + rewrite (test_body_declared _ _ _ declared) by done. cbn zeta.
      destruct (fs !! old_file_name _ declared) as [baseline|].
      * destruct (chart.read_image (chart.render c fs)) as [new_image|e]; [|done].
        destruct (chart.read_image baseline) as [old_image|e]; [|done].
        destruct (chart.rmse old_image new_image) as [metric|e]; [|done].
        destruct (chart.metric_is_zero _); intros [= <- _]; simpl; by auto.
      * intros [= <- _]. simpl. by auto.
  - unfold chart.ChartTestTask.body, chart.getitem. by rewrite Hprop.
Qed.

(** X24: the chart tests that are built are one for each chart of each
    analysis file of the project, in the order of the files and of their
    charts, whether simulations are to be run or not; and each of them finds
    its chart: run on the file system the analysis files were read from, a
    test that returns gives SKIP, PASS or FAIL, never the ERROR of a chart
    that is not found. *)
Theorem get_chart_test_tasks_find `{!chart.Imaging} simulation_project run_simulations
    filter working_directory_filter fs :
  let files :=
    chart.get_analysis_files simulation_project
      (chart.or_else filter working_directory_filter) in
  let test_tasks :=
    chart.tasks
      (get_chart_test_tasks simulation_project run_simulations filter
         working_directory_filter fs) in
  test_tasks
  = concat
      (map (λ file,
              map (test_task_of simulation_project file)
                (chart.load_anf_file (task.get_full_path simulation_project file) fs))
         files)
  ∧ ∀ test_task, test_task ∈ test_tasks →
      ∀ keep_charts r fs',
        chart.ChartTestTask.run_protected test_task keep_charts fs = (Returned r, fs') →
        chart.result r = "SKIP" ∨ chart.result r = "PASS" ∨ chart.result r = "FAIL".
Proof.
  intros files test_tasks. unfold test_tasks.
  rewrite get_chart_test_tasks_tasks, fold_for_analysis_file_fst. fold files. simpl.
  split; [done|].
  intros test_task (file & Hfile & Htask)%elem_of_concat_map.
  apply list_elem_of_fmap in Htask as (c & -> & Hc).
  intros keep_charts r fs'. unfold chart.ChartTestTask.run_protected. simpl.
  rewrite test_for_charts. simpl.
  destruct (find_chart_elem c _ Hc) as [c' ->]. apply test_body_result.
Qed.

(** X25: the simulation tasks of the batch of chart tests never hold two
    tasks of the same configuration and run, whatever the folders of the
    analysis files contribute; and when simulations are not to be run the
    batch holds no simulation task at all. *)
Theorem get_chart_test_tasks_distinct simulation_project run_simulations filter
    working_directory_filter fs :
  distinct_runs
    (task.tasks
       (chart.multiple_simulation_tasks
          (get_chart_test_tasks simulation_project run_simulations filter
             working_directory_filter fs)))
  ∧ task.tasks
      (chart.multiple_simulation_tasks
         (get_chart_test_tasks simulation_project false filter working_directory_filter fs))
    = [].
Proof.
  rewrite !get_chart_test_tasks_simulations. split.
  - apply (fold_for_analysis_file_snd distinct_runs).
    + intros new l. apply add_simulation_tasks_distinct.
    + by intros i j a b _ Ha.
  - by rewrite fold_for_analysis_file_off.
Qed.

(** X26: when simulations are to be run, every simulation task found for
    the folder of an analysis file that has a chart is represented in the
    batch: the task itself is among the simulation tasks, or a task of the
    same configuration and run that was added before it. *)
Theorem get_chart_test_tasks_covers simulation_project filter working_directory_filter fs
    file c t :
  file ∈ chart.get_analysis_files simulation_project
           (chart.or_else filter working_directory_filter) →
  c ∈ chart.load_anf_file (task.get_full_path simulation_project file) fs →
  t ∈ tasks_of_folder simulation_project file →
  represented t
    (task.tasks
       (chart.multiple_simulation_tasks
          (get_chart_test_tasks simulation_project true filter working_directory_filter fs))).
Proof.
  intros Hfile Hc Ht. rewrite get_chart_test_tasks_simulations.
  apply list_elem_of_split in Hfile as (files1 & files2 & ->).
  rewrite fold_left_app. simpl.
  apply (fold_for_analysis_file_snd (represented t)).
  { intros new l. apply add_simulation_tasks_represented. }
  unfold chart.for_analysis_file at 1.
  apply list_elem_of_split in Hc as (charts1 & charts2 & ->).
  rewrite fold_left_app. simpl.
  apply (fold_for_chart_snd (represented t)).
  { intros new l. apply add_simulation_tasks_represented. }
  rewrite for_chart_snd. by apply add_simulation_tasks_new.
Qed.

End test_builder.

Lemma get_chart_test_tasks_covers_witness :
  let t := task.new_task (Some (task.Fixed "5s")) None "release" "Cmdenv" false false
             demo_config_wifi 2 in
  @represented demo_workspace t
    (task.tasks
       (chart.multiple_simulation_tasks
          (@chart.get_chart_test_tasks demo_scave demo_workspace demo_discovery
             "release" "Cmdenv" false false demo_project true None None ∅))).
Proof.
  intros t.
  apply (@get_chart_test_tasks_covers demo_scave demo_workspace demo_discovery
           "release" "Cmdenv" false false demo_project None None ∅
           "showcases/coexistence/Coexistence.anf" chart_renewal t).
  - apply list_elem_of_In. vm_compute. tauto.
  - apply list_elem_of_In. vm_compute. tauto.
  - apply list_elem_of_In. vm_compute. tauto.
Defined.
